(** * CartService (src/app/services/cart.service.ts)

    A shallow embedding of the Angular cart service: two [BehaviorSubject]s
    (the item array and the item count), the four mutating methods, the
    price query, and the notifications each call pushes to subscribers.

    Numbers.  A TypeScript [number] is an IEEE 754 binary64 value.  Prices,
    quantities and the count are modelled by Rocq's primitive [float], the
    same binary64 format with the same rounding: [+] and [*] of the source
    are [PrimFloat.add] and [PrimFloat.mul], and [<=] is [PrimFloat.leb]
    (false on NaN).  Product identifiers are the integer ids of the
    catalogue and are modelled by [Z]; [===] on them is integer equality.

    Objects.  The array held by [cartItems] contains references to item
    objects, and [[...currentItems]] copies the array but not the objects.
    The store below keeps the contents of the array currently held by the
    subject; a reference to one of its elements is the element's index, and
    an assignment through such a reference rewrites the stored array in
    place, before (and independently of) any [next]. *)

From Stdlib Require Import String ZArith List Bool Lia.
From Stdlib Require Import PrimFloat.
From Stdlib Require FloatOps FloatAxioms SpecFloat.
From Stdlib Require QArith Qround.
Import ListNotations.
Open Scope Z_scope.

(** ** Data model *)

(** [interface CartItem]. *)
Record CartItem : Type := mkCartItem {
  id : Z;
  name : string;
  price : float;
  quantity : float;
  image : option string
}.

(** [Omit<CartItem, 'quantity'>], the argument of [addToCart]. *)
Module Product.
Record t : Type := mk {
  id : Z;
  name : string;
  price : float;
  image : option string
}.
End Product.

(** [{ ...product, quantity: q }]. *)
Definition spread (product : Product.t) (q : float) : CartItem :=
  {| id := Product.id product;
     name := Product.name product;
     price := Product.price product;
     quantity := q;
     image := Product.image product |}.

(** [item.quantity = q] on one object: every other field is kept. *)
Definition assignQuantity (q : float) (item : CartItem) : CartItem :=
  {| id := id item;
     name := name item;
     price := price item;
     quantity := q;
     image := image item |}.

(** The current values of the two subjects. *)
Record Store : Type := mkStore {
  cartItems : list CartItem;
  cartCount : float
}.

(** [new BehaviorSubject<CartItem[]>([])] and [new BehaviorSubject<number>(0)]. *)
Definition initialStore : Store := {| cartItems := []; cartCount := 0%float |}.

(** One value delivered to the subscribers of [cartItems$] or of
    [cartCount$]. *)
Inductive Notification : Type :=
| ItemsNext (value : list CartItem)
| CountNext (value : float).

(** ** The monad of service methods

    A method reads and writes the store and appends to the trace of
    notifications it delivered, in delivery order. *)
Definition Cart (A : Type) : Type := Store -> A * Store * list Notification.

Definition ret {A} (a : A) : Cart A := fun s => (a, s, []).

Definition bind {A B} (m : Cart A) (k : A -> Cart B) : Cart B :=
  fun s =>
    let '(a, s1, t1) := m s in
    let '(b, s2, t2) := k a s1 in
    (b, s2, t1 ++ t2).

Declare Scope cart_scope.
Delimit Scope cart_scope with cart.
Notation "x <- m ;; k" := (bind m (fun x => k))
  (at level 61, m at next level, right associativity) : cart_scope.
Notation "m ;; k" := (bind m (fun _ => k))
  (at level 61, right associativity) : cart_scope.
Open Scope cart_scope.

Definition resultOf {A} (m : Cart A) (s : Store) : A := fst (fst (m s)).
Definition storeAfter {A} (m : Cart A) (s : Store) : Store := snd (fst (m s)).
Definition emittedBy {A} (m : Cart A) (s : Store) : list Notification := snd (m s).

(** [this.cartItems.value]. *)
Definition itemsValue : Cart (list CartItem) :=
  fun s => (cartItems s, s, []).

(** [this.cartItems.next(v)]: stores [v] and delivers it. *)
Definition itemsNext (v : list CartItem) : Cart unit :=
  fun s => (tt, {| cartItems := v; cartCount := cartCount s |}, [ItemsNext v]).

(** [this.cartCount.next(c)]. *)
Definition countNext (c : float) : Cart unit :=
  fun s => (tt, {| cartItems := cartItems s; cartCount := c |}, [CountNext c]).

(** ** Array helpers *)

(** [Array.prototype.find]: a reference to the first element satisfying
    [p], as its index; [None] stands for [undefined]. *)
Fixpoint findRef (p : CartItem -> bool) (l : list CartItem) : option nat :=
  match l with
  | [] => None
  | item :: rest =>
      if p item then Some O
      else match findRef p rest with
           | Some i => Some (S i)
           | None => None
           end
  end.

(** Assignment through a reference: the object at index [i] becomes
    [f] of itself, every other slot is untouched. *)
Fixpoint modifyAt (i : nat) (f : CartItem -> CartItem) (l : list CartItem)
  : list CartItem :=
  match l, i with
  | [], _ => []
  | item :: rest, O => f item :: rest
  | item :: rest, S j => item :: modifyAt j f rest
  end.

(** A write to a field of an object reachable from the stored array; no
    subject is notified. *)
Definition mutateItem (ref : nat) (f : CartItem -> CartItem) : Cart unit :=
  fun s =>
    (tt, {| cartItems := modifyAt ref f (cartItems s); cartCount := cartCount s |}, []).

(** ** The methods *)

(** [reduce((total, item) => total + item.quantity, 0)]. *)
Definition reduceQuantity (items : list CartItem) : float :=
  fold_left (fun total item => (total + quantity item)%float) items 0%float.

(** [reduce((total, item) => total + (item.price * item.quantity), 0)]. *)
Definition reducePrice (items : list CartItem) : float :=
  fold_left (fun total item => (total + price item * quantity item)%float) items 0%float.

Definition updateCartCount : Cart unit :=
  items <- itemsValue ;;
  let count := reduceQuantity items in
  countNext count.

Definition addToCart (product : Product.t) : Cart unit :=
  currentItems <- itemsValue ;;
  match findRef (fun item => id item =? Product.id product) currentItems with
  | Some existingItem =>
      mutateItem existingItem (fun item => assignQuantity (quantity item + 1)%float item) ;;
      (* [currentItems] is the stored array itself: the copy sees the write. *)
      currentItems <- itemsValue ;;
      itemsNext currentItems
  | None =>
      let newItem := spread product 1%float in
      itemsNext (currentItems ++ [newItem])
  end ;;
  updateCartCount.

Definition removeFromCart (productId : Z) : Cart unit :=
  currentItems <- itemsValue ;;
  let updatedItems := filter (fun item => negb (id item =? productId)) currentItems in
  itemsNext updatedItems ;;
  updateCartCount.

Definition updateQuantity (productId : Z) (quantity : float) : Cart unit :=
  if (quantity <=? 0)%float then
    removeFromCart productId
  else
    currentItems <- itemsValue ;;
    match findRef (fun item => id item =? productId) currentItems with
    | Some item =>
        mutateItem item (assignQuantity quantity) ;;
        currentItems <- itemsValue ;;
        itemsNext currentItems ;;
        updateCartCount
    | None => ret tt
    end.

Definition clearCart : Cart unit :=
  itemsNext [] ;;
  updateCartCount.

Definition getTotalPrice : Cart float :=
  items <- itemsValue ;;
  ret (reducePrice items).

(** ** Calls and call sequences *)

(** A call of one of the four mutating methods. *)
Inductive Call : Type :=
| AddToCart (product : Product.t)
| RemoveFromCart (productId : Z)
| UpdateQuantity (productId : Z) (quantity : float)
| ClearCart.

Definition perform (c : Call) : Cart unit :=
  match c with
  | AddToCart product => addToCart product
  | RemoveFromCart productId => removeFromCart productId
  | UpdateQuantity productId q => updateQuantity productId q
  | ClearCart => clearCart
  end.

(** The calls of a list, first to last. *)
Fixpoint performAll (cs : list Call) : Cart unit :=
  match cs with
  | [] => ret tt
  | c :: rest => perform c ;; performAll rest
  end.

(** ** Specification-side notions *)

(** The product identifiers of the lines, in array order. *)
Definition ids (items : list CartItem) : list Z := map id items.

(** The count subject holds what [updateCartCount] computes from the item
    subject: the quantities added up in double precision, left to right
    from 0. *)
Definition countConsistent (s : Store) : Prop :=
  cartCount s = reduceQuantity (cartItems s).

(** At most one line per product identifier. *)
Definition uniqueIds (s : Store) : Prop := NoDup (ids (cartItems s)).

(** [Subseq l1 l2]: [l1] is [l2] with some elements dropped, the others
    in the same relative order. *)
Inductive Subseq {A : Type} : list A -> list A -> Prop :=
| Subseq_nil : Subseq [] []
| Subseq_keep x l1 l2 : Subseq l1 l2 -> Subseq (x :: l1) (x :: l2)
| Subseq_drop x l1 l2 : Subseq l1 l2 -> Subseq l1 (x :: l2).

(** The store a call sequence leads to from the initial one. *)
Definition reached (cs : list Call) : Store := storeAfter (performAll cs) initialStore.

(** ** Exact values

    The specification's sums are sums of numbers, not of doubles.  To
    compare them with what the code computes, a finite double is read as
    the rational number it denotes. *)

Module Exact.
Import QArith.

(** The rational a double denotes; [None] for NaN and the infinities. *)
Definition value (x : float) : option Q :=
  match FloatOps.Prim2SF x with
  | SpecFloat.S754_zero _ => Some 0
  | SpecFloat.S754_finite s m e =>
      Some (inject_Z (SpecFloat.cond_Zopp s (Zpos m)) * Qpower (2 # 1) e)
  | SpecFloat.S754_infinity _ => None
  | SpecFloat.S754_nan => None
  end.

(** Two values that are both numbers, and the same number. *)
Definition sameValue (a b : option Q) : Prop :=
  match a, b with
  | Some x, Some y => x == y
  | _, _ => False
  end.

(** The sum of the numbers a list of doubles denotes. *)
Fixpoint exactSum (l : list float) : option Q :=
  match l with
  | [] => Some 0
  | x :: rest =>
      match value x, exactSum rest with
      | Some a, Some b => Some (a + b)
      | _, _ => None
      end
  end.

(** The sum of [quantity] over the lines, as numbers. *)
Definition totalQuantity (items : list CartItem) : option Q :=
  exactSum (map quantity items).

(** The sum of [price * quantity] over the lines, as numbers. *)
Fixpoint totalPrice (items : list CartItem) : option Q :=
  match items with
  | [] => Some 0
  | item :: rest =>
      match value (price item), value (quantity item), totalPrice rest with
      | Some p, Some q, Some t => Some (p * q + t)
      | _, _, _ => None
      end
  end.

(** The double [x + y] is the sum of the numbers [x] and [y]: the
    addition did not round. *)
Definition exactAdd (x y : float) : Prop :=
  match value x, value y with
  | Some a, Some b => sameValue (value (x + y)%float) (Some (a + b))
  | _, _ => False
  end.

(** The double [x * y] is the product of the numbers [x] and [y]. *)
Definition exactMul (x y : float) : Prop :=
  match value x, value y with
  | Some a, Some b => sameValue (value (x * y)%float) (Some (a * b))
  | _, _ => False
  end.

(** No addition rounds when [l] is added up left to right onto [acc]. *)
Fixpoint addsExactly (acc : float) (l : list float) : Prop :=
  match l with
  | [] => True
  | x :: rest => exactAdd acc x /\ addsExactly (acc + x)%float rest
  end.

(** No product [price * quantity] of a line rounds. *)
Definition multipliesExactly (items : list CartItem) : Prop :=
  Forall (fun item => exactMul (price item) (quantity item)) items.

Lemma value_zero : value 0%float = Some 0.
Proof. reflexivity. Qed.

Lemma addsExactly_sum (l : list float) :
  forall (acc : float) (a : Q),
    value acc = Some a -> addsExactly acc l ->
    exists r d,
      value (fold_left PrimFloat.add l acc) = Some r /\ exactSum l = Some d /\ r == a + d.
Proof.
  induction l as [|x rest IH]; intros acc a Hacc Hl; simpl.
  - exists a, 0. split; [exact Hacc|]. split; [reflexivity|]. ring.
  - destruct Hl as [Hadd Hrest]. unfold exactAdd in Hadd. rewrite Hacc in Hadd.
    destruct (value x) as [b|]; [|contradiction].
    destruct (value (acc + x)%float) as [c|] eqn:Hc; [|contradiction].
    simpl in Hadd.
    destruct (IH _ _ Hc Hrest) as (r & d & Hr & Hd & Heq).
    exists r, (b + d). rewrite Hd. split; [exact Hr|]. split; [reflexivity|].
    rewrite Heq, Hadd. ring.
Qed.

(** Without rounding, adding a list up from 0 gives its sum. *)
Lemma addsExactly_from_zero (l : list float) :
  addsExactly 0%float l ->
  sameValue (value (fold_left PrimFloat.add l 0%float)) (exactSum l).
Proof.
  intros Hl. destruct (addsExactly_sum l _ _ value_zero Hl) as (r & d & Hr & Hd & Heq).
  rewrite Hr, Hd. simpl. rewrite Heq. ring.
Qed.

Lemma multipliesExactly_total (items : list CartItem) :
  multipliesExactly items ->
  forall t, exactSum (map (fun item => (price item * quantity item)%float) items) = Some t ->
            exists t', totalPrice items = Some t' /\ t == t'.
Proof.
  induction 1 as [|item rest Hitem Hrest IH]; simpl; intros t Ht.
  - exists 0. split; [reflexivity|]. injection Ht as <-. reflexivity.
  - unfold exactMul in Hitem.
    destruct (value (price item)) as [p|]; [|contradiction].
    destruct (value (quantity item)) as [q|]; [|contradiction].
    destruct (value (price item * quantity item)%float) as [pq|]; [|contradiction].
    simpl in Hitem.
    destruct (exactSum (map (fun item => (price item * quantity item)%float) rest))
      as [u|]; [|discriminate].
    injection Ht as <-. destruct (IH u eq_refl) as (t' & -> & Hu).
    exists (p * q + t'). split; [reflexivity|]. now rewrite Hitem, Hu.
Qed.

(** Without rounding in the products and in the additions, the sum of
    the double products added up from 0 is the sum of the products. *)
Lemma totalPrice_exact (items : list CartItem) :
  multipliesExactly items ->
  addsExactly 0%float (map (fun item => (price item * quantity item)%float) items) ->
  sameValue
    (value (fold_left PrimFloat.add
                      (map (fun item => (price item * quantity item)%float) items)
                      0%float))
    (totalPrice items).
Proof.
  intros Hmul Hadd. pose proof (addsExactly_from_zero _ Hadd) as Hsum.
  destruct (value (fold_left PrimFloat.add _ 0%float)) as [r|]; [|contradiction].
  destruct (exactSum _) as [t|] eqn:Ht; [|contradiction]. simpl in Hsum.
  destruct (multipliesExactly_total _ Hmul _ Ht) as (t' & -> & Heq).
  simpl. now rewrite Hsum.
Qed.

End Exact.

(** ** Lemmas on the array helpers *)

(** The two reduces add up a list of doubles from 0, left to right. *)
Lemma reduceQuantity_fold (items : list CartItem) :
  reduceQuantity items = fold_left PrimFloat.add (map quantity items) 0%float.
Proof.
  unfold reduceQuantity. generalize 0%float.
  induction items as [|item rest IH]; intros acc; simpl; [reflexivity|]. apply IH.
Qed.

Lemma reducePrice_fold (items : list CartItem) :
  reducePrice items
  = fold_left PrimFloat.add (map (fun item => (price item * quantity item)%float) items)
              0%float.
Proof.
  unfold reducePrice. generalize 0%float.
  induction items as [|item rest IH]; intros acc; simpl; [reflexivity|]. apply IH.
Qed.

(** A quantity above 0 fails the guard [quantity <= 0]. *)
Lemma positive_passes_guard (q : float) :
  (0 <? q)%float = true -> (q <=? 0)%float = false.
Proof.
  rewrite FloatAxioms.ltb_spec, FloatAxioms.leb_spec.
  change (FloatOps.Prim2SF 0) with (SpecFloat.S754_zero false).
  destruct (FloatOps.Prim2SF q) as [s|s| |s m e]; simpl;
    try discriminate; try reflexivity; destruct s; simpl;
    solve [discriminate|reflexivity].
Qed.

Lemma findRef_None (p : CartItem -> bool) (l : list CartItem) :
  findRef p l = None <-> (forall item, In item l -> p item = false).
Proof.
  induction l as [|x l IH]; simpl.
  - split; [intros _ item []|reflexivity].
  - destruct (p x) eqn:Hx.
    + split; [discriminate|]. intros H. specialize (H x (or_introl eq_refl)). congruence.
    + destruct (findRef p l) as [i|].
      * split; [discriminate|]. intros H.
        assert (Hnone : Some i = None) by (apply IH; intros item Hin; apply H; now right).
        discriminate.
      * split; [|reflexivity]. intros _ item [<-|Hin]; [assumption|].
        now apply (proj1 IH).
Qed.

(** What [find] returns is the first match: nothing before it matches. *)
Lemma findRef_Some (p : CartItem -> bool) (l : list CartItem) (i : nat) :
  findRef p l = Some i ->
  exists before item after,
    l = before ++ item :: after /\ length before = i /\ p item = true /\
    (forall x, In x before -> p x = false).
Proof.
  revert i. induction l as [|x l IH]; intros i; simpl; [discriminate|].
  destruct (p x) eqn:Hx.
  - intros [= <-]. exists [], x, l. repeat split; auto. intros ? [].
  - destruct (findRef p l) as [j|]; [|discriminate].
    intros [= <-]. destruct (IH j eq_refl) as (b & it & a & -> & Hlen & Hit & Hb).
    exists (x :: b), it, a. simpl. repeat split; auto.
    intros y [<-|Hy]; auto.
Qed.

Lemma modifyAt_middle (f : CartItem -> CartItem) (before after : list CartItem)
      (item : CartItem) :
  modifyAt (length before) f (before ++ item :: after) = before ++ f item :: after.
Proof. induction before as [|x b IH]; simpl; [reflexivity|]. now rewrite IH. Qed.

Lemma modifyAt_ids (i : nat) (f : CartItem -> CartItem) (l : list CartItem) :
  (forall item, id (f item) = id item) -> ids (modifyAt i f l) = ids l.
Proof.
  intros Hf. revert i. induction l as [|x l IH]; intros [|i]; simpl; try reflexivity.
  - now rewrite Hf.
  - now rewrite IH.
Qed.

Lemma In_ids_matches (x : Z) (l : list CartItem) :
  In x (ids l) <-> exists item, In item l /\ (id item =? x) = true.
Proof.
  unfold ids. rewrite in_map_iff. split.
  - intros (item & <- & Hin). exists item. split; [assumption|apply Z.eqb_refl].
  - intros (item & Hin & Heq). exists item. split; [now apply Z.eqb_eq|assumption].
Qed.

Lemma findRef_absent (x : Z) (l : list CartItem) :
  ~ In x (ids l) <-> findRef (fun item => id item =? x) l = None.
Proof.
  rewrite findRef_None, In_ids_matches. split.
  - intros Hno item Hin. destruct (id item =? x) eqn:E; [|reflexivity].
    exfalso. apply Hno. now exists item.
  - intros Hall (item & Hin & Heq). rewrite (Hall item Hin) in Heq. discriminate.
Qed.

Lemma findRef_present (x : Z) (l : list CartItem) :
  In x (ids l) -> exists i, findRef (fun item => id item =? x) l = Some i.
Proof.
  intros Hin. destruct (findRef (fun item => id item =? x) l) as [i|] eqn:E.
  - now exists i.
  - apply findRef_absent in E. contradiction.
Qed.

Lemma filter_absent (x : Z) (l : list CartItem) :
  ~ In x (ids l) -> filter (fun item => negb (id item =? x)) l = l.
Proof.
  induction l as [|y l IH]; simpl; [reflexivity|]. intros Hno.
  destruct (id y =? x) eqn:E.
  - exfalso. apply Hno. left. now apply Z.eqb_eq.
  - simpl. rewrite IH; [reflexivity|]. intros H. apply Hno. now right.
Qed.

Lemma filter_removes (x : Z) (l : list CartItem) :
  ~ In x (ids (filter (fun item => negb (id item =? x)) l)).
Proof.
  rewrite In_ids_matches. intros (item & Hin & Heq).
  apply filter_In in Hin. destruct Hin as [_ Hneg]. rewrite Heq in Hneg. discriminate.
Qed.

Lemma filter_Subseq {A : Type} (p : A -> bool) (l : list A) : Subseq (filter p l) l.
Proof.
  induction l as [|x l IH]; simpl; [constructor|].
  destruct (p x); now constructor.
Qed.

Lemma Subseq_In {A : Type} (l1 l2 : list A) (x : A) :
  Subseq l1 l2 -> In x l1 -> In x l2.
Proof.
  induction 1 as [|y l1 l2 _ IH|y l1 l2 _ IH]; simpl; auto.
  intros [->|H]; auto.
Qed.

Lemma Subseq_NoDup {A : Type} (l1 l2 : list A) :
  Subseq l1 l2 -> NoDup l2 -> NoDup l1.
Proof.
  induction 1 as [|y l1 l2 Hs IH|y l1 l2 Hs IH]; intros Hnd; auto.
  - inversion Hnd as [|? ? Hy Hrest]; subst. constructor; auto.
    intros Hin. apply Hy. eapply Subseq_In; eauto.
  - inversion Hnd; subst. auto.
Qed.

Lemma Subseq_map {A B : Type} (f : A -> B) (l1 l2 : list A) :
  Subseq l1 l2 -> Subseq (map f l1) (map f l2).
Proof. induction 1; simpl; now constructor. Qed.

(** ** What one call does, in closed form *)

(** The store and trace of a method that publishes [items] and then the
    count recomputed from them. *)
Definition published (items : list CartItem) : unit * Store * list Notification :=
  (tt,
   {| cartItems := items; cartCount := reduceQuantity items |},
   [ItemsNext items; CountNext (reduceQuantity items)]).

Lemma addToCart_existing (product : Product.t) (s : Store) (i : nat) :
  findRef (fun item => id item =? Product.id product) (cartItems s) = Some i ->
  addToCart product s
  = published (modifyAt i (fun item => assignQuantity (quantity item + 1)%float item)
                        (cartItems s)).
Proof. intros H. unfold addToCart, bind, itemsValue. rewrite H. reflexivity. Qed.

Lemma addToCart_fresh (product : Product.t) (s : Store) :
  findRef (fun item => id item =? Product.id product) (cartItems s) = None ->
  addToCart product s = published (cartItems s ++ [spread product 1%float]).
Proof. intros H. unfold addToCart, bind, itemsValue. rewrite H. reflexivity. Qed.

Lemma removeFromCart_run (productId : Z) (s : Store) :
  removeFromCart productId s
  = published (filter (fun item => negb (id item =? productId)) (cartItems s)).
Proof. reflexivity. Qed.

Lemma updateQuantity_nonpositive (productId : Z) (q : float) (s : Store) :
  (q <=? 0)%float = true -> updateQuantity productId q s = removeFromCart productId s.
Proof. intros H. unfold updateQuantity. now rewrite H. Qed.

Lemma updateQuantity_existing (productId : Z) (q : float) (s : Store) (i : nat) :
  (q <=? 0)%float = false ->
  findRef (fun item => id item =? productId) (cartItems s) = Some i ->
  updateQuantity productId q s = published (modifyAt i (assignQuantity q) (cartItems s)).
Proof.
  intros Hq H. unfold updateQuantity. rewrite Hq.
  unfold bind, itemsValue. rewrite H. reflexivity.
Qed.

Lemma updateQuantity_unknown (productId : Z) (q : float) (s : Store) :
  (q <=? 0)%float = false ->
  findRef (fun item => id item =? productId) (cartItems s) = None ->
  updateQuantity productId q s = (tt, s, []).
Proof.
  intros Hq H. unfold updateQuantity. rewrite Hq.
  unfold bind, itemsValue. rewrite H. destruct s; reflexivity.
Qed.

Lemma clearCart_run (s : Store) : clearCart s = published [].
Proof. reflexivity. Qed.

(** Every call either does nothing at all or publishes the items and then
    the count it leaves in the store. *)
Lemma perform_silent_or_published (c : Call) (s : Store) :
  perform c s = (tt, s, []) \/ exists items, perform c s = published items.
Proof.
  destruct c as [product|productId|productId q|]; cbn [perform].
  - right. destruct (findRef (fun item => id item =? Product.id product) (cartItems s))
      as [i|] eqn:E.
    + eexists. apply addToCart_existing. exact E.
    + eexists. apply addToCart_fresh. exact E.
  - right. eexists. apply removeFromCart_run.
  - destruct (q <=? 0)%float eqn:Hq.
    + right. eexists. rewrite updateQuantity_nonpositive by assumption.
      apply removeFromCart_run.
    + destruct (findRef (fun item => id item =? productId) (cartItems s)) as [i|] eqn:E.
      * right. eexists. apply updateQuantity_existing; [assumption|eassumption].
      * left. apply updateQuantity_unknown; assumption.
  - right. eexists. apply clearCart_run.
Qed.

(** A property kept by every call holds along every call sequence. *)
Lemma performAll_invariant (P : Store -> Prop) :
  (forall c s, P s -> P (storeAfter (perform c) s)) ->
  forall cs s, P s -> P (storeAfter (performAll cs) s).
Proof.
  intros Hstep cs. induction cs as [|c cs IH]; intros s Hs; simpl.
  - exact Hs.
  - specialize (Hstep c s Hs). unfold storeAfter, bind in *.
    destruct (perform c s) as [[u s1] t1]. simpl in Hstep.
    specialize (IH s1 Hstep).
    destruct (performAll cs s1) as [[u2 s2] t2]. exact IH.
Qed.

Lemma perform_countConsistent (c : Call) (s : Store) :
  countConsistent s -> countConsistent (storeAfter (perform c) s).
Proof.
  intros Hs. unfold storeAfter.
  destruct (perform_silent_or_published c s) as [-> | [items ->]]; simpl.
  - exact Hs.
  - reflexivity.
Qed.

Lemma NoDup_snoc (x : Z) (l : list Z) : NoDup l -> ~ In x l -> NoDup (l ++ [x]).
Proof.
  induction l as [|y l IH]; simpl; intros Hnd Hx.
  - constructor; [intros []|constructor].
  - inversion Hnd as [|? ? Hy Hl]; subst. constructor.
    + rewrite in_app_iff. simpl. intros [H|[H|[]]]; [contradiction|].
      apply Hx. now left.
    + apply IH; [assumption|]. intros H. apply Hx. now right.
Qed.

Lemma perform_uniqueIds (c : Call) (s : Store) :
  uniqueIds s -> uniqueIds (storeAfter (perform c) s).
Proof.
  unfold uniqueIds, storeAfter. intros Hs.
  destruct c as [product|productId|productId q|]; cbn [perform].
  - destruct (findRef (fun item => id item =? Product.id product) (cartItems s))
      as [i|] eqn:E.
    + rewrite (addToCart_existing _ _ _ E). simpl.
      rewrite modifyAt_ids; [assumption|reflexivity].
    + rewrite (addToCart_fresh _ _ E). simpl. unfold ids. rewrite map_app. simpl.
      apply NoDup_snoc; [assumption|]. now apply findRef_absent.
  - apply (Subseq_NoDup _ (ids (cartItems s))); [|assumption].
    apply Subseq_map, filter_Subseq.
  - destruct (q <=? 0)%float eqn:Hq.
    + rewrite updateQuantity_nonpositive by assumption.
      apply (Subseq_NoDup _ (ids (cartItems s))); [|assumption].
      apply Subseq_map, filter_Subseq.
    + destruct (findRef (fun item => id item =? productId) (cartItems s)) as [i|] eqn:E.
      * rewrite (updateQuantity_existing _ _ _ i) by assumption. simpl.
        rewrite modifyAt_ids; [assumption|reflexivity].
      * rewrite updateQuantity_unknown by assumption. assumption.
  - constructor.
Qed.

Lemma assignQuantity_same (item : CartItem) : assignQuantity (quantity item) item = item.
Proof. destruct item; reflexivity. Qed.

(** With unique identifiers, the line [find] returns for an identifier is
    the only line carrying it. *)
Lemma unique_line (l before after : list CartItem) (first item : CartItem) :
  NoDup (ids l) -> l = before ++ first :: after ->
  In item l -> id item = id first -> item = first.
Proof.
  intros Hnd -> Hin Hid. unfold ids in Hnd. rewrite map_app in Hnd. simpl in Hnd.
  pose proof (NoDup_remove_2 _ _ _ Hnd) as Hout. rewrite in_app_iff in Hout.
  apply in_app_or in Hin. destruct Hin as [Hin|[Heq|Hin]].
  - exfalso. apply Hout. left. rewrite <- Hid. now apply in_map.
  - now symmetry.
  - exfalso. apply Hout. right. rewrite <- Hid. now apply in_map.
Qed.

(** A write through the reference [find] returned leaves every line that
    does not match in its slot. *)
Lemma modifyAt_others (p : CartItem -> bool) (f : CartItem -> CartItem)
      (l : list CartItem) (i j : nat) (item : CartItem) :
  findRef p l = Some i -> nth_error l j = Some item -> p item = false ->
  nth_error (modifyAt i f l) j = Some item.
Proof.
  revert i j. induction l as [|x l IH]; intros i j; simpl; [discriminate|].
  destruct (p x) eqn:Hx.
  - intros [= <-]. destruct j as [|j]; simpl; [|tauto].
    intros [= ->] Hp. congruence.
  - destruct (findRef p l) as [k|]; [|discriminate]. intros [= <-].
    destruct j as [|j]; simpl; [tauto|]. now apply IH.
Qed.

(** ** Sample data *)

Definition productA : Product.t := Product.mk 1 "A" 10 None.
Definition productB : Product.t := Product.mk 2 "B" 5 None.
Definition productC : Product.t := Product.mk 3 "C" 1 None.

(** The cart after one [addToCart(productA)]. *)
Definition cartWithA : Store := reached [AddToCart productA].

(** The cart after [addToCart(productA)] and [addToCart(productB)]. *)
Definition cartWithAB : Store := reached [AddToCart productA; AddToCart productB].

(** Product A with its quantity set to 2^53, the first double whose
    successor integer is not a double. *)
Definition cartAt2to53 : Store :=
  reached [AddToCart productA; UpdateQuantity 1 9007199254740992].

(** Products B and C added to that cart. *)
Definition cartBeyond2to53 : Store :=
  reached [AddToCart productA; UpdateQuantity 1 9007199254740992;
           AddToCart productB; AddToCart productC].

(** A product priced 2^53 - 1, added three times. *)
Definition productDear : Product.t := Product.mk 1 "A" 9007199254740991 None.
Definition cartThreeDear : Store :=
  reached [AddToCart productDear; AddToCart productDear; AddToCart productDear].

Example scenarioB :
  let s := reached [AddToCart productA; AddToCart productB; UpdateQuantity 1 3] in
  cartCount s = 4%float /\ resultOf getTotalPrice s = 35%float.
Proof. split; reflexivity. Qed.

Example cartWithA_consistent : countConsistent cartWithA.
Proof. reflexivity. Qed.

Example cartWithA_unique : uniqueIds cartWithA.
Proof. unfold uniqueIds. simpl. constructor; [intros []|constructor]. Qed.

Example cartWithA_without_2 : ~ In 2 (ids (cartItems cartWithA)).
Proof. simpl. intros [H|[]]. discriminate. Qed.

Example cartWithA_with_1 : In 1 (ids (cartItems cartWithA)).
Proof. simpl. left. reflexivity. Qed.

(** ** removeFromCart on an identifier that is not in the cart *)

(** C1, as stated, fails: with product 1 in the cart, [removeFromCart(2)]
    finds nothing to remove and leaves the store as it was, yet it
    delivers a notification on each feed. *)
Lemma removeFromCart_absent_not_silent :
  ~ In 2 (ids (cartItems cartWithA)) /\
  storeAfter (removeFromCart 2) cartWithA = cartWithA /\
  emittedBy (removeFromCart 2) cartWithA
  = [ItemsNext (cartItems cartWithA); CountNext 1] /\
  emittedBy (removeFromCart 2) cartWithA <> [].
Proof.
  split; [exact cartWithA_without_2|].
  split; [reflexivity|]. split; [reflexivity|]. discriminate.
Qed.

(** C1, amended: in a store whose count agrees with its lines, removing
    an identifier [x] that no line carries leaves the lines and the count
    unchanged, and delivers exactly one notification on the lines feed and
    then one on the count feed, carrying those unchanged values. *)
Theorem removeFromCart_absent_republishes (s : Store) (x : Z) :
  countConsistent s ->
  ~ In x (ids (cartItems s)) ->
  storeAfter (removeFromCart x) s = s /\
  emittedBy (removeFromCart x) s = [ItemsNext (cartItems s); CountNext (cartCount s)].
Proof.
  intros Hcount Habsent. unfold storeAfter, emittedBy.
  rewrite removeFromCart_run, (filter_absent _ _ Habsent). unfold published. simpl.
  unfold countConsistent in Hcount. rewrite <- Hcount. destruct s; split; reflexivity.
Qed.

Lemma removeFromCart_absent_republishes_witness :
  countConsistent cartWithA /\ ~ In 2 (ids (cartItems cartWithA)) /\
  storeAfter (removeFromCart 2) cartWithA = cartWithA /\
  emittedBy (removeFromCart 2) cartWithA
  = [ItemsNext (cartItems cartWithA); CountNext (cartCount cartWithA)].
Proof.
  split; [exact cartWithA_consistent|]. split; [exact cartWithA_without_2|].
  apply (removeFromCart_absent_republishes cartWithA 2);
    [exact cartWithA_consistent | exact cartWithA_without_2].
Defined.

(** ** Invariants along call sequences *)

(** C2, as stated, fails: after [addToCart(A)], [updateQuantity(1, 2^53)],
    [addToCart(B)], [addToCart(C)] the lines hold the quantities 2^53, 1
    and 1, whose sum is 2^53 + 2, and the published count is 2^53: both
    additions of 1 were rounded away. *)
Lemma count_not_the_sum_beyond_2to53 :
  map quantity (cartItems cartBeyond2to53) = [9007199254740992; 1; 1]%float /\
  cartCount cartBeyond2to53 = 9007199254740992%float /\
  ~ Exact.sameValue (Exact.value (cartCount cartBeyond2to53))
                    (Exact.totalQuantity (cartItems cartBeyond2to53)).
Proof.
  split; [reflexivity|]. split; [reflexivity|].
  vm_compute. intros H. discriminate H.
Qed.

(** C2, amended: from the empty cart, after every call of every sequence
    of [addToCart], [removeFromCart], [updateQuantity] and [clearCart]
    calls (that is, after each prefix of the sequence), the value of the
    count subject is the sum of [quantity] over the value of the items
    subject as [updateCartCount] computes it, in double precision, left
    to right from 0; it is the sum of the quantities as numbers whenever
    none of these additions rounds. *)
Theorem count_consistent_after_every_call (cs : list Call) (n : nat) :
  let s := reached (firstn n cs) in
  cartCount s = reduceQuantity (cartItems s) /\
  (Exact.addsExactly 0%float (map quantity (cartItems s)) ->
   Exact.sameValue (Exact.value (cartCount s)) (Exact.totalQuantity (cartItems s))).
Proof.
  intros s.
  assert (Hcount : countConsistent s).
  { unfold s, reached. apply (performAll_invariant countConsistent).
    - exact perform_countConsistent.
    - reflexivity. }
  split; [exact Hcount|]. intros Hexact.
  unfold countConsistent in Hcount. rewrite Hcount, reduceQuantity_fold.
  now apply Exact.addsExactly_from_zero.
Qed.

Lemma count_consistent_after_every_call_witness :
  Exact.addsExactly 0%float (map quantity (cartItems cartWithAB)) /\
  Exact.sameValue (Exact.value (cartCount cartWithAB))
                  (Exact.totalQuantity (cartItems cartWithAB)).
Proof.
  split.
  - vm_compute. repeat split.
  - apply (proj2 (count_consistent_after_every_call
                    [AddToCart productA; AddToCart productB] 2)).
    vm_compute. repeat split.
Defined.

(** C3: from the empty cart, every sequence of the four calls, and so
    every sequence of [addToCart] calls, leads to a cart with at most one
    line per product identifier. *)
Theorem unique_ids_after_every_sequence (cs : list Call) :
  uniqueIds (reached cs).
Proof.
  unfold reached. apply (performAll_invariant uniqueIds).
  - exact perform_uniqueIds.
  - constructor.
Qed.

(** ** addToCart *)

(** C4, as stated, fails: on a line whose quantity is 2^53, [addToCart]
    leaves the quantity at 2^53; the double addition [2^53 + 1] rounds
    back to 2^53, so the line is not incremented by 1. *)
Lemma addToCart_no_increment_at_2to53 :
  In (Product.id productA) (ids (cartItems cartAt2to53)) /\
  map quantity (cartItems cartAt2to53) = [9007199254740992]%float /\
  map quantity (cartItems (storeAfter (addToCart productA) cartAt2to53))
  = [9007199254740992]%float /\
  ~ Exact.exactAdd 9007199254740992 1.
Proof.
  split; [simpl; left; reflexivity|]. split; [reflexivity|]. split; [reflexivity|].
  vm_compute. intros H. discriminate H.
Qed.

(** C4, amended: if a line carries the product's identifier, [addToCart]
    replaces the quantity of that line (the first such line) by the
    double-precision sum [quantity + 1] and keeps its name, price and
    image as they were, whatever the argument says; every other line is
    untouched.  If no line carries it, a new line with quantity 1 is
    appended.  Adding a product with identifier 1 and price 10 twice to
    the empty cart gives one line of quantity 2, count 2 and total price
    20. *)
Theorem addToCart_increments_or_appends :
  (forall (product : Product.t) (s : Store),
      In (Product.id product) (ids (cartItems s)) ->
      exists before line after,
        cartItems s = before ++ line :: after /\
        id line = Product.id product /\
        ~ In (Product.id product) (ids before) /\
        cartItems (storeAfter (addToCart product) s)
        = before ++ {| id := id line; name := name line; price := price line;
                       quantity := (quantity line + 1)%float;
                       image := image line |} :: after) /\
  (forall (product : Product.t) (s : Store),
      ~ In (Product.id product) (ids (cartItems s)) ->
      cartItems (storeAfter (addToCart product) s)
      = cartItems s ++ [ {| id := Product.id product; name := Product.name product;
                            price := Product.price product; quantity := 1;
                            image := Product.image product |} ]) /\
  (forall (nm : string) (img : option string),
      let product := Product.mk 1 nm 10 img in
      let s := reached [AddToCart product; AddToCart product] in
      cartItems s = [ {| id := 1; name := nm; price := 10; quantity := 2; image := img |} ] /\
      cartCount s = 2%float /\
      resultOf getTotalPrice s = 20%float).
Proof.
  split; [|split].
  - intros product s Hin.
    destruct (findRef_present _ _ Hin) as [i Hi].
    destruct (findRef_Some _ _ _ Hi) as (before & line & after & Hl & Hlen & Hline & Hbefore).
    exists before, line, after. split; [exact Hl|].
    split; [now apply Z.eqb_eq|]. split.
    + apply findRef_absent, findRef_None. exact Hbefore.
    + unfold storeAfter. rewrite (addToCart_existing _ _ _ Hi). simpl.
      rewrite Hl, <- Hlen. apply modifyAt_middle.
  - intros product s Habsent. apply findRef_absent in Habsent.
    unfold storeAfter. rewrite (addToCart_fresh _ _ Habsent). reflexivity.
  - intros nm img. repeat split; reflexivity.
Qed.

Lemma addToCart_increments_or_appends_witness :
  (In (Product.id productA) (ids (cartItems cartWithA)) /\
   exists before line after,
     cartItems cartWithA = before ++ line :: after /\
     id line = Product.id productA /\
     ~ In (Product.id productA) (ids before) /\
     cartItems (storeAfter (addToCart productA) cartWithA)
     = before ++ {| id := id line; name := name line; price := price line;
                    quantity := (quantity line + 1)%float;
                    image := image line |} :: after) /\
  (~ In (Product.id productB) (ids (cartItems cartWithA)) /\
   cartItems (storeAfter (addToCart productB) cartWithA)
   = cartItems cartWithA ++ [ {| id := 2; name := "B"; price := 5; quantity := 1;
                                 image := None |} ]).
Proof.
  split; split.
  - exact cartWithA_with_1.
  - apply (proj1 addToCart_increments_or_appends productA cartWithA).
    exact cartWithA_with_1.
  - exact cartWithA_without_2.
  - apply (proj1 (proj2 addToCart_increments_or_appends) productB cartWithA).
    exact cartWithA_without_2.
Defined.

(** ** updateQuantity *)

(** C5: for a quantity [q <= 0], [updateQuantity(x, q)] does exactly what
    [removeFromCart(x)] does: the same store results and the same
    notifications are delivered; afterwards no line carries [x]. *)
Theorem updateQuantity_nonpositive_removes (s : Store) (x : Z) (q : float) :
  (q <=? 0)%float = true ->
  updateQuantity x q s = removeFromCart x s /\
  storeAfter (updateQuantity x q) s = storeAfter (removeFromCart x) s /\
  emittedBy (updateQuantity x q) s = emittedBy (removeFromCart x) s /\
  ~ In x (ids (cartItems (storeAfter (updateQuantity x q) s))).
Proof.
  intros Hq. pose proof (updateQuantity_nonpositive x q s Hq) as Heq.
  unfold storeAfter, emittedBy. rewrite Heq.
  repeat split. rewrite removeFromCart_run. simpl. apply filter_removes.
Qed.

Lemma updateQuantity_nonpositive_removes_witness :
  (-5 <=? 0)%float = true /\
  updateQuantity 1 (-5) cartWithA = removeFromCart 1 cartWithA /\
  storeAfter (updateQuantity 1 (-5)) cartWithA = storeAfter (removeFromCart 1) cartWithA /\
  emittedBy (updateQuantity 1 (-5)) cartWithA = emittedBy (removeFromCart 1) cartWithA /\
  ~ In 1 (ids (cartItems (storeAfter (updateQuantity 1 (-5)) cartWithA))).
Proof.
  split; [reflexivity|].
  apply (updateQuantity_nonpositive_removes cartWithA 1 (-5)). reflexivity.
Defined.

(** C6: for a positive quantity and an identifier [x] that no line
    carries, [updateQuantity(x, q)] does nothing: the store (lines and
    count) is the one it started from, no line is created and nothing is
    delivered on either feed.  On the empty cart, [updateQuantity(99, 5)]
    leaves the lines empty. *)
Theorem updateQuantity_unknown_id_is_noop :
  (forall (s : Store) (x : Z) (q : float),
      ~ In x (ids (cartItems s)) -> (0 <? q)%float = true ->
      storeAfter (updateQuantity x q) s = s /\
      emittedBy (updateQuantity x q) s = []) /\
  cartItems (storeAfter (updateQuantity 99 5) initialStore) = [].
Proof.
  split; [|reflexivity]. intros s x q Habsent Hq.
  apply findRef_absent in Habsent. apply positive_passes_guard in Hq.
  unfold storeAfter, emittedBy.
  rewrite (updateQuantity_unknown _ _ _ Hq Habsent). split; reflexivity.
Qed.

Lemma updateQuantity_unknown_id_is_noop_witness :
  ~ In 2 (ids (cartItems cartWithA)) /\ (0 <? 5)%float = true /\
  storeAfter (updateQuantity 2 5) cartWithA = cartWithA /\
  emittedBy (updateQuantity 2 5) cartWithA = [].
Proof.
  split; [exact cartWithA_without_2|]. split; [reflexivity|].
  apply (proj1 updateQuantity_unknown_id_is_noop cartWithA 2 5%float);
    [exact cartWithA_without_2 | reflexivity].
Defined.

(** ** getTotalPrice *)

(** C7, as stated, fails: with a product priced 2^53 - 1 added three
    times, the cart holds one line of quantity 3 and [getTotalPrice]
    returns 27021597764222972, while price times quantity is
    27021597764222973: the product was rounded. *)
Lemma getTotalPrice_not_the_sum :
  map quantity (cartItems cartThreeDear) = [3]%float /\
  map price (cartItems cartThreeDear) = [9007199254740991]%float /\
  resultOf getTotalPrice cartThreeDear = 27021597764222972%float /\
  ~ Exact.sameValue (Exact.value (resultOf getTotalPrice cartThreeDear))
                    (Exact.totalPrice (cartItems cartThreeDear)).
Proof.
  split; [reflexivity|]. split; [reflexivity|]. split; [reflexivity|].
  vm_compute. intros H. discriminate H.
Qed.

(** C7, amended: [getTotalPrice] returns the sum of [price * quantity]
    over the current lines as the code computes it, in double precision,
    left to right from 0; it leaves the store as it is and delivers
    nothing.  The result is the sum of the products as numbers whenever
    none of these multiplications and additions rounds.  After
    [addToCart] of a product with identifier 1 and then [clearCart], it
    returns 0 and the lines are empty. *)
Theorem getTotalPrice_is_pure_sum :
  (forall s : Store, getTotalPrice s = (reducePrice (cartItems s), s, [])) /\
  (forall s : Store,
      Exact.multipliesExactly (cartItems s) ->
      Exact.addsExactly 0%float
        (map (fun item => (price item * quantity item)%float) (cartItems s)) ->
      Exact.sameValue (Exact.value (resultOf getTotalPrice s))
                      (Exact.totalPrice (cartItems s))) /\
  (forall (nm : string) (unitPrice : float) (img : option string),
      let s := reached [AddToCart (Product.mk 1 nm unitPrice img); ClearCart] in
      resultOf getTotalPrice s = 0%float /\ cartItems s = []).
Proof.
  split; [|split].
  - intros s. reflexivity.
  - intros s Hmul Hadd.
    change (resultOf getTotalPrice s) with (reducePrice (cartItems s)).
    rewrite reducePrice_fold. now apply Exact.totalPrice_exact.
  - intros nm unitPrice img. split; reflexivity.
Qed.

Lemma getTotalPrice_is_pure_sum_witness :
  Exact.multipliesExactly (cartItems cartWithAB) /\
  Exact.addsExactly 0%float
    (map (fun item => (price item * quantity item)%float) (cartItems cartWithAB)) /\
  Exact.sameValue (Exact.value (resultOf getTotalPrice cartWithAB))
                  (Exact.totalPrice (cartItems cartWithAB)).
Proof.
  assert (Hmul : Exact.multipliesExactly (cartItems cartWithAB)).
  { repeat constructor; vm_compute; reflexivity. }
  assert (Hadd : Exact.addsExactly 0%float
                   (map (fun item => (price item * quantity item)%float)
                        (cartItems cartWithAB))).
  { vm_compute. repeat split. }
  split; [exact Hmul|]. split; [exact Hadd|].
  exact (proj1 (proj2 getTotalPrice_is_pure_sum) cartWithAB Hmul Hadd).
Defined.

(** ** Notifications *)

(** C8: a call that changes the store delivers exactly two notifications
    before it returns: first the new lines on the lines feed, then the new
    count on the count feed.  No call ever delivers anything else than
    this pair or nothing. *)
Theorem mutation_publishes_items_then_count (c : Call) (s : Store) :
  (storeAfter (perform c) s <> s ->
   emittedBy (perform c) s
   = [ItemsNext (cartItems (storeAfter (perform c) s));
      CountNext (cartCount (storeAfter (perform c) s))]) /\
  (emittedBy (perform c) s = [] \/
   emittedBy (perform c) s
   = [ItemsNext (cartItems (storeAfter (perform c) s));
      CountNext (cartCount (storeAfter (perform c) s))]).
Proof.
  unfold storeAfter, emittedBy.
  destruct (perform_silent_or_published c s) as [-> | [items ->]]; simpl.
  - split; [intros H; now contradiction H|now left].
  - split; [reflexivity|now right].
Qed.

Lemma mutation_publishes_items_then_count_witness :
  storeAfter (perform (AddToCart productB)) cartWithA <> cartWithA /\
  emittedBy (perform (AddToCart productB)) cartWithA
  = [ItemsNext (cartItems (storeAfter (perform (AddToCart productB)) cartWithA));
     CountNext (cartCount (storeAfter (perform (AddToCart productB)) cartWithA))].
Proof.
  split.
  - discriminate.
  - apply (proj1 (mutation_publishes_items_then_count (AddToCart productB) cartWithA)).
    discriminate.
Defined.

(** ** Order of the lines *)

Lemma Subseq_refl {A : Type} (l : list A) : Subseq l l.
Proof. induction l; now constructor. Qed.

(** C9: no call reorders lines.  [addToCart] on an identifier already in
    the cart and [updateQuantity] with a positive quantity keep the same
    product in every slot, and every line of another product stays
    unchanged in its slot; [addToCart] on a new identifier appends the new
    line after all the old ones; [removeFromCart], and [updateQuantity]
    with a quantity [<= 0], keep the remaining lines in the same relative
    order.  For every call, the identifiers afterwards are identifiers
    retained from before, in their former relative order, followed by at
    most one newly added identifier. *)
Theorem calls_keep_line_order :
  (forall (product : Product.t) (s : Store),
      In (Product.id product) (ids (cartItems s)) ->
      ids (cartItems (storeAfter (addToCart product) s)) = ids (cartItems s) /\
      forall (j : nat) (line : CartItem),
        nth_error (cartItems s) j = Some line -> id line <> Product.id product ->
        nth_error (cartItems (storeAfter (addToCart product) s)) j = Some line) /\
  (forall (product : Product.t) (s : Store),
      ~ In (Product.id product) (ids (cartItems s)) ->
      exists line,
        id line = Product.id product /\
        cartItems (storeAfter (addToCart product) s) = cartItems s ++ [line]) /\
  (forall (x : Z) (s : Store),
      Subseq (cartItems (storeAfter (removeFromCart x) s)) (cartItems s)) /\
  (forall (x : Z) (q : float) (s : Store),
      (0 <? q)%float = true ->
      ids (cartItems (storeAfter (updateQuantity x q) s)) = ids (cartItems s) /\
      forall (j : nat) (line : CartItem),
        nth_error (cartItems s) j = Some line -> id line <> x ->
        nth_error (cartItems (storeAfter (updateQuantity x q) s)) j = Some line) /\
  (forall (x : Z) (q : float) (s : Store),
      (q <=? 0)%float = true ->
      Subseq (cartItems (storeAfter (updateQuantity x q) s)) (cartItems s)) /\
  (forall (c : Call) (s : Store),
      exists kept added,
        ids (cartItems (storeAfter (perform c) s)) = kept ++ added /\
        Subseq kept (ids (cartItems s)) /\
        (added = [] \/
         exists product,
           c = AddToCart product /\ added = [Product.id product] /\
           ~ In (Product.id product) (ids (cartItems s)))).
Proof.
  assert (Hadd : forall product s, In (Product.id product) (ids (cartItems s)) ->
            ids (cartItems (storeAfter (addToCart product) s)) = ids (cartItems s) /\
            forall j line,
              nth_error (cartItems s) j = Some line -> id line <> Product.id product ->
              nth_error (cartItems (storeAfter (addToCart product) s)) j = Some line).
  { intros product s Hin. destruct (findRef_present _ _ Hin) as [i Hi].
    unfold storeAfter. rewrite (addToCart_existing _ _ _ Hi). simpl. split.
    - now apply modifyAt_ids.
    - intros j line Hj Hid.
      apply (modifyAt_others _ _ _ _ _ _ Hi Hj). now apply Z.eqb_neq. }
  assert (Hnew : forall product s, ~ In (Product.id product) (ids (cartItems s)) ->
            cartItems (storeAfter (addToCart product) s)
            = cartItems s ++ [spread product 1%float]).
  { intros product s Habsent. apply findRef_absent in Habsent.
    unfold storeAfter. now rewrite (addToCart_fresh _ _ Habsent). }
  assert (Hrem : forall x s,
            Subseq (cartItems (storeAfter (removeFromCart x) s)) (cartItems s)).
  { intros x s. unfold storeAfter. rewrite removeFromCart_run. simpl.
    apply filter_Subseq. }
  assert (Hset : forall x q s, (q <=? 0)%float = false ->
            ids (cartItems (storeAfter (updateQuantity x q) s)) = ids (cartItems s) /\
            forall j line,
              nth_error (cartItems s) j = Some line -> id line <> x ->
              nth_error (cartItems (storeAfter (updateQuantity x q) s)) j = Some line).
  { intros x q s Hq. unfold storeAfter.
    destruct (findRef (fun item => id item =? x) (cartItems s)) as [i|] eqn:Hi.
    - rewrite (updateQuantity_existing _ _ _ _ Hq Hi). simpl. split.
      + now apply modifyAt_ids.
      + intros j line Hj Hid.
        apply (modifyAt_others _ _ _ _ _ _ Hi Hj). now apply Z.eqb_neq.
    - rewrite (updateQuantity_unknown _ _ _ Hq Hi). simpl. split; auto. }
  assert (Hfloor : forall x q s, (q <=? 0)%float = true ->
            Subseq (cartItems (storeAfter (updateQuantity x q) s)) (cartItems s)).
  { intros x q s Hq. unfold storeAfter.
    rewrite (updateQuantity_nonpositive _ _ _ Hq). apply Hrem. }
  split; [exact Hadd|]. split.
  { intros product s Habsent. exists (spread product 1%float).
    split; [reflexivity|now apply Hnew]. }
  split; [exact Hrem|].
  split; [intros x q s Hq; apply Hset, positive_passes_guard, Hq|].
  split; [exact Hfloor|].
  intros c s. destruct c as [product|x|x q|]; cbn [perform].
  - destruct (in_dec Z.eq_dec (Product.id product) (ids (cartItems s))) as [Hin|Hout].
    + exists (ids (cartItems s)), []. rewrite app_nil_r.
      split; [apply (Hadd _ _ Hin)|]. split; [apply Subseq_refl|now left].
    + exists (ids (cartItems s)), [Product.id product].
      rewrite (Hnew _ _ Hout). unfold ids. rewrite map_app. simpl.
      split; [reflexivity|]. split; [apply Subseq_refl|].
      right. now exists product.
  - eexists _, []. rewrite app_nil_r. split; [reflexivity|].
    split; [apply Subseq_map, Hrem|now left].
  - eexists _, []. rewrite app_nil_r. split; [reflexivity|]. split; [|now left].
    destruct (q <=? 0)%float eqn:Hq.
    + apply Subseq_map, Hfloor, Hq.
    + rewrite (proj1 (Hset x q s Hq)). apply Subseq_refl.
  - exists [], []. split; [reflexivity|]. split; [|now left].
    induction (ids (cartItems s)); now constructor.
Qed.

Lemma calls_keep_line_order_witness :
  (In (Product.id productA) (ids (cartItems cartWithAB)) /\
   ids (cartItems (storeAfter (addToCart productA) cartWithAB)) = [1; 2]) /\
  (~ In (Product.id productB) (ids (cartItems cartWithA)) /\
   exists line,
     id line = Product.id productB /\
     cartItems (storeAfter (addToCart productB) cartWithA) = cartItems cartWithA ++ [line]) /\
  ((0 <? 3)%float = true /\
   ids (cartItems (storeAfter (updateQuantity 2 3) cartWithAB)) = [1; 2]) /\
  ((0 <=? 0)%float = true /\
   Subseq (cartItems (storeAfter (updateQuantity 1 0) cartWithAB)) (cartItems cartWithAB)).
Proof.
  split; [|split; [|split]]; split.
  - simpl. left. reflexivity.
  - apply (proj1 calls_keep_line_order productA cartWithAB).
    simpl. left. reflexivity.
  - exact cartWithA_without_2.
  - apply (proj1 (proj2 calls_keep_line_order) productB cartWithA).
    exact cartWithA_without_2.
  - reflexivity.
  - apply (proj1 (proj2 (proj2 (proj2 calls_keep_line_order))) 2 3%float cartWithAB).
    reflexivity.
  - reflexivity.
  - apply (proj1 (proj2 (proj2 (proj2 (proj2 calls_keep_line_order)))) 1 0%float
                 cartWithAB).
    reflexivity.
Defined.

(** ** Setting a quantity to the value it already has *)

(** C10: in a store with unique identifiers and a consistent count that
    holds a line for [x] with quantity [q > 0], [updateQuantity(x, q)]
    leaves the store exactly as it was and still delivers one notification
    on the lines feed and then one on the count feed, carrying the
    unchanged lines and the unchanged count. *)
Theorem updateQuantity_same_value_still_publishes
        (s : Store) (x : Z) (q : float) (line : CartItem) :
  uniqueIds s -> countConsistent s ->
  In line (cartItems s) -> id line = x -> quantity line = q -> (0 <? q)%float = true ->
  storeAfter (updateQuantity x q) s = s /\
  emittedBy (updateQuantity x q) s = [ItemsNext (cartItems s); CountNext (cartCount s)].
Proof.
  intros Huniq Hcount Hin Hid Hqty Hq. apply positive_passes_guard in Hq.
  assert (Hx : In x (ids (cartItems s))) by (rewrite <- Hid; now apply in_map).
  destruct (findRef_present _ _ Hx) as [i Hi].
  destruct (findRef_Some _ _ _ Hi) as (before & first & after & Hl & Hlen & Hfirst & _).
  apply Z.eqb_eq in Hfirst.
  assert (Hsame : line = first)
    by (apply (unique_line _ _ _ _ _ Huniq Hl Hin); congruence).
  subst first.
  assert (Hitems : modifyAt i (assignQuantity q) (cartItems s) = cartItems s).
  { rewrite Hl at 1. rewrite <- Hlen, modifyAt_middle, <- Hqty, assignQuantity_same.
    now symmetry. }
  unfold storeAfter, emittedBy. rewrite (updateQuantity_existing _ _ _ _ Hq Hi), Hitems.
  unfold published. simpl. unfold countConsistent in Hcount. rewrite <- Hcount.
  destruct s; split; reflexivity.
Qed.

Lemma updateQuantity_same_value_still_publishes_witness :
  uniqueIds cartWithA /\ countConsistent cartWithA /\
  In (spread productA 1) (cartItems cartWithA) /\ (0 <? 1)%float = true /\
  storeAfter (updateQuantity 1 1) cartWithA = cartWithA /\
  emittedBy (updateQuantity 1 1) cartWithA
  = [ItemsNext (cartItems cartWithA); CountNext (cartCount cartWithA)].
Proof.
  split; [exact cartWithA_unique|]. split; [reflexivity|].
  split; [simpl; left; reflexivity|]. split; [reflexivity|].
  apply (updateQuantity_same_value_still_publishes cartWithA 1 1 (spread productA 1)).
  - exact cartWithA_unique.
  - reflexivity.
  - simpl. left. reflexivity.
  - reflexivity.
  - reflexivity.
  - reflexivity.
Defined.


(** * Further properties of the service *)

(** ** More lemmas on the array helpers *)

Lemma storeAfter_published (items : list CartItem) (m : Cart unit) (s : Store) :
  m s = published items ->
  storeAfter m s = {| cartItems := items; cartCount := reduceQuantity items |}.
Proof. intros H. unfold storeAfter. now rewrite H. Qed.

Lemma emittedBy_published (items : list CartItem) (m : Cart unit) (s : Store) :
  m s = published items ->
  emittedBy m s = [ItemsNext items; CountNext (reduceQuantity items)].
Proof. intros H. unfold emittedBy. now rewrite H. Qed.

(** A write that keeps the identifier does not move what [find] finds. *)
Lemma findRef_modifyAt (x : Z) (j : nat) (f : CartItem -> CartItem) (l : list CartItem) :
  (forall item, id (f item) = id item) ->
  findRef (fun item => id item =? x) (modifyAt j f l)
  = findRef (fun item => id item =? x) l.
Proof.
  intros Hf. revert j. induction l as [|y l IH]; intros [|j]; simpl; try reflexivity.
  - now rewrite Hf.
  - now rewrite IH.
Qed.

Lemma modifyAt_twice (i : nat) (f g : CartItem -> CartItem) (l : list CartItem) :
  modifyAt i g (modifyAt i f l) = modifyAt i (fun item => g (f item)) l.
Proof.
  revert i. induction l as [|y l IH]; intros [|i]; simpl; try reflexivity.
  now rewrite IH.
Qed.

(** The lines of the products other than [x]. *)
Definition others (x : Z) (items : list CartItem) : list CartItem :=
  filter (fun item => negb (id item =? x)) items.

Lemma others_app (x : Z) (l1 l2 : list CartItem) :
  others x (l1 ++ l2) = others x l1 ++ others x l2.
Proof. apply filter_app. Qed.

Lemma others_modifyAt (x : Z) (i : nat) (f : CartItem -> CartItem) (l : list CartItem) :
  (forall item, id (f item) = id item) ->
  findRef (fun item => id item =? x) l = Some i ->
  others x (modifyAt i f l) = others x l.
Proof.
  intros Hf Hi. destruct (findRef_Some _ _ _ Hi) as (b & line & a & -> & <- & Hp & _).
  rewrite modifyAt_middle, !others_app. f_equal. unfold others. simpl.
  now rewrite Hf, Hp.
Qed.

Lemma others_idempotent (x : Z) (l : list CartItem) : others x (others x l) = others x l.
Proof.
  unfold others. induction l as [|y l IH]; simpl; [reflexivity|].
  destruct (id y =? x) eqn:E; simpl; [assumption|]. now rewrite E, IH.
Qed.

(** With unique identifiers, removing [x] takes out exactly its one line. *)
Lemma others_unique (x : Z) (before after : list CartItem) (line : CartItem) :
  NoDup (ids (before ++ line :: after)) -> id line = x ->
  others x (before ++ line :: after) = before ++ after.
Proof.
  intros Hnd Hid. unfold ids in Hnd. rewrite map_app in Hnd. simpl in Hnd.
  pose proof (NoDup_remove_2 _ _ _ Hnd) as Hout. rewrite in_app_iff, Hid in Hout.
  rewrite others_app. unfold others at 2. simpl.
  apply Z.eqb_eq in Hid. rewrite Hid. simpl.
  unfold others. rewrite !filter_absent; auto.
Qed.

Lemma performAll_app (cs1 cs2 : list Call) (s : Store) :
  storeAfter (performAll (cs1 ++ cs2)) s
  = storeAfter (performAll cs2) (storeAfter (performAll cs1) s).
Proof.
  revert s. induction cs1 as [|c cs1 IH]; intros s; simpl; [reflexivity|].
  unfold storeAfter, bind in *.
  destruct (perform c s) as [[u s1] t1]. specialize (IH s1).
  destruct (performAll (cs1 ++ cs2) s1) as [[u2 s2] t2].
  destruct (performAll cs1 s1) as [[u3 s3] t3]. simpl in *. exact IH.
Qed.

Lemma performAll_cons (c : Call) (cs : list Call) (s : Store) :
  storeAfter (performAll (c :: cs)) s
  = storeAfter (performAll cs) (storeAfter (perform c) s).
Proof.
  simpl. unfold storeAfter, bind. destruct (perform c s) as [[u s1] t1]. simpl.
  now destruct (performAll cs s1) as [[u2 s2] t2].
Qed.

Example cartWithAB_unique : uniqueIds cartWithAB.
Proof.
  unfold uniqueIds. simpl. constructor.
  - intros [H|[]]. discriminate.
  - constructor; [intros []|constructor].
Qed.

Example cartWithAB_with_1 : In 1 (ids (cartItems cartWithAB)).
Proof. simpl. left. reflexivity. Qed.

(** ** updateQuantity on a line of the cart *)

(** X1: for a quantity [q] that fails the guard [q <= 0] (a positive
    number, whole or not, and also NaN) and an identifier carried by a
    line, [updateQuantity] stores [q] itself in the first such line (an
    absolute value, not a delta, and not rounded to a whole number),
    keeps its other fields and all other lines, and publishes the new
    lines and then the count recomputed from them. *)
Theorem updateQuantity_sets_quantity (s : Store) (x : Z) (q : float) :
  (q <=? 0)%float = false -> In x (ids (cartItems s)) ->
  exists before line after,
    cartItems s = before ++ line :: after /\
    id line = x /\ ~ In x (ids before) /\
    cartItems (storeAfter (updateQuantity x q) s)
    = before ++ {| id := id line; name := name line; price := price line;
                   quantity := q; image := image line |} :: after /\
    cartCount (storeAfter (updateQuantity x q) s)
    = reduceQuantity (cartItems (storeAfter (updateQuantity x q) s)) /\
    emittedBy (updateQuantity x q) s
    = [ItemsNext (cartItems (storeAfter (updateQuantity x q) s));
       CountNext (cartCount (storeAfter (updateQuantity x q) s))].
Proof.
  intros Hq Hin. destruct (findRef_present _ _ Hin) as [i Hi].
  destruct (findRef_Some _ _ _ Hi) as (before & line & after & Hl & Hlen & Hline & Hbefore).
  exists before, line, after. split; [exact Hl|].
  split; [now apply Z.eqb_eq|]. split.
  { apply findRef_absent, findRef_None. exact Hbefore. }
  rewrite (storeAfter_published _ _ _ (updateQuantity_existing _ _ _ _ Hq Hi)).
  rewrite (emittedBy_published _ _ _ (updateQuantity_existing _ _ _ _ Hq Hi)).
  cbn [cartItems cartCount]. split; [|split; reflexivity].
  rewrite Hl, <- Hlen. apply modifyAt_middle.
Qed.

Lemma updateQuantity_sets_quantity_witness :
  (0.5 <=? 0)%float = false /\ In 1 (ids (cartItems cartWithAB)) /\
  exists before line after,
    cartItems cartWithAB = before ++ line :: after /\
    id line = 1 /\ ~ In 1 (ids before) /\
    cartItems (storeAfter (updateQuantity 1 0.5) cartWithAB)
    = before ++ {| id := id line; name := name line; price := price line;
                   quantity := 0.5; image := image line |} :: after /\
    cartCount (storeAfter (updateQuantity 1 0.5) cartWithAB)
    = reduceQuantity (cartItems (storeAfter (updateQuantity 1 0.5) cartWithAB)) /\
    emittedBy (updateQuantity 1 0.5) cartWithAB
    = [ItemsNext (cartItems (storeAfter (updateQuantity 1 0.5) cartWithAB));
       CountNext (cartCount (storeAfter (updateQuantity 1 0.5) cartWithAB))].
Proof.
  split; [reflexivity|]. split; [exact cartWithAB_with_1|].
  apply (updateQuantity_sets_quantity cartWithAB 1 0.5);
    [reflexivity|exact cartWithAB_with_1].
Defined.

(** NaN fails the guard as well, and is stored and published. *)
Example updateQuantity_stores_nan :
  map quantity (cartItems (storeAfter (updateQuantity 1 nan) cartWithAB)) = [nan; 1%float] /\
  cartCount (storeAfter (updateQuantity 1 nan) cartWithAB) = nan.
Proof. split; reflexivity. Qed.

(** ** What addToCart reads of its argument *)

(** X3: when a line already carries the identifier, [addToCart] looks at
    nothing but the identifier of its argument: two products with the
    same identifier, whatever their names, prices and images, lead to the
    same store and the same notifications. *)
Theorem addToCart_existing_reads_only_id (p1 p2 : Product.t) (s : Store) :
  Product.id p1 = Product.id p2 ->
  In (Product.id p1) (ids (cartItems s)) ->
  addToCart p1 s = addToCart p2 s.
Proof.
  intros Hid Hin. destruct (findRef_present _ _ Hin) as [i Hi].
  rewrite (addToCart_existing p1 s i Hi).
  rewrite Hid in Hi. now rewrite (addToCart_existing p2 s i Hi).
Qed.

(** Product 1 again, under another name, price and image. *)
Definition productARelabelled : Product.t :=
  Product.mk 1 "renamed" 99 (Some "a.png"%string).

Lemma addToCart_existing_reads_only_id_witness :
  Product.id productA = Product.id productARelabelled /\
  In (Product.id productA) (ids (cartItems cartWithA)) /\
  addToCart productA cartWithA
  = addToCart productARelabelled cartWithA.
Proof.
  split; [reflexivity|]. split; [exact cartWithA_with_1|].
  apply (addToCart_existing_reads_only_id productA productARelabelled cartWithA);
    [reflexivity|exact cartWithA_with_1].
Defined.

(** ** removeFromCart *)

(** X6: in a cart with unique identifiers, [removeFromCart] of the
    identifier of a line takes out exactly that one line: the lines
    before it and after it are kept as they were, in order, and the
    published count is recomputed from them. *)
Theorem removeFromCart_takes_out_line (s : Store) (x : Z) (line : CartItem) :
  uniqueIds s -> In line (cartItems s) -> id line = x ->
  exists before after,
    cartItems s = before ++ line :: after /\
    cartItems (storeAfter (removeFromCart x) s) = before ++ after /\
    cartCount (storeAfter (removeFromCart x) s) = reduceQuantity (before ++ after).
Proof.
  intros Huniq Hin Hid.
  assert (Hx : In x (ids (cartItems s))) by (rewrite <- Hid; now apply in_map).
  destruct (findRef_present _ _ Hx) as [i Hi].
  destruct (findRef_Some _ _ _ Hi) as (before & first & after & Hl & _ & Hfirst & _).
  apply Z.eqb_eq in Hfirst.
  assert (Hsame : line = first)
    by (apply (unique_line _ _ _ _ _ Huniq Hl Hin); congruence).
  subst first. unfold uniqueIds in Huniq. exists before, after.
  split; [exact Hl|].
  rewrite (storeAfter_published _ _ _ (removeFromCart_run _ _)). cbn [cartItems cartCount].
  fold (others x (cartItems s)). rewrite Hl in *.
  rewrite (others_unique _ _ _ _ Huniq Hid). split; reflexivity.
Qed.

Lemma removeFromCart_takes_out_line_witness :
  uniqueIds cartWithAB /\ In (spread productA 1) (cartItems cartWithAB) /\
  exists before after,
    cartItems cartWithAB = before ++ spread productA 1 :: after /\
    cartItems (storeAfter (removeFromCart 1) cartWithAB) = before ++ after /\
    cartCount (storeAfter (removeFromCart 1) cartWithAB) = reduceQuantity (before ++ after).
Proof.
  split; [exact cartWithAB_unique|]. split; [simpl; left; reflexivity|].
  apply (removeFromCart_takes_out_line cartWithAB 1 (spread productA 1)).
  - exact cartWithAB_unique.
  - simpl. left. reflexivity.
  - reflexivity.
Defined.

(** X7: [removeFromCart] is idempotent, notifications included: called
    again with the same identifier right after itself, it leaves the store
    it found and delivers the same two notifications once more. *)
Theorem removeFromCart_again_same (s : Store) (x : Z) :
  removeFromCart x (storeAfter (removeFromCart x) s) = removeFromCart x s.
Proof.
  rewrite (storeAfter_published _ _ _ (removeFromCart_run x s)).
  rewrite !removeFromCart_run. simpl. fold (others x (cartItems s)).
  fold (others x (others x (cartItems s))). now rewrite others_idempotent.
Qed.

(** X8: adding a product that the cart does not hold and removing it
    again gives back the store one started from (lines and count), when
    the count agreed with the lines. *)
Theorem addToCart_then_remove_restores (s : Store) (product : Product.t) :
  countConsistent s -> ~ In (Product.id product) (ids (cartItems s)) ->
  storeAfter (removeFromCart (Product.id product)) (storeAfter (addToCart product) s) = s.
Proof.
  intros Hcount Habsent. pose proof Habsent as Hnone. apply findRef_absent in Hnone.
  rewrite (storeAfter_published _ _ _ (addToCart_fresh _ _ Hnone)).
  rewrite (storeAfter_published _ _ _ (removeFromCart_run _ _)). simpl.
  fold (others (Product.id product) (cartItems s ++ [spread product 1])).
  rewrite others_app. unfold others at 2. simpl. rewrite Z.eqb_refl. simpl.
  unfold others. rewrite (filter_absent _ _ Habsent), app_nil_r.
  unfold countConsistent in Hcount. rewrite <- Hcount. now destruct s.
Qed.

Lemma addToCart_then_remove_restores_witness :
  countConsistent cartWithA /\ ~ In (Product.id productB) (ids (cartItems cartWithA)) /\
  storeAfter (removeFromCart (Product.id productB)) (storeAfter (addToCart productB) cartWithA)
  = cartWithA.
Proof.
  split; [exact cartWithA_consistent|]. split; [exact cartWithA_without_2|].
  apply (addToCart_then_remove_restores cartWithA productB);
    [exact cartWithA_consistent|exact cartWithA_without_2].
Defined.

(** ** Composing calls *)

Lemma assignQuantity_twice (q1 q2 : float) (item : CartItem) :
  assignQuantity q2 (assignQuantity q1 item) = assignQuantity q2 item.
Proof. reflexivity. Qed.

Lemma modifyAt_ext (i : nat) (f g : CartItem -> CartItem) (l : list CartItem) :
  (forall item, f item = g item) -> modifyAt i f l = modifyAt i g l.
Proof.
  intros H. revert i. induction l as [|y l IH]; intros [|i]; simpl; try reflexivity.
  - now rewrite H.
  - now rewrite IH.
Qed.

(** X9: the last [updateQuantity] wins.  After an [updateQuantity] with a
    positive quantity, a second [updateQuantity] of the same identifier
    leads to the store it would have led to alone, whatever its quantity
    (positive, zero or negative). *)
Theorem updateQuantity_last_write_wins (s : Store) (x : Z) (q1 q2 : float) :
  (0 <? q1)%float = true ->
  storeAfter (updateQuantity x q2) (storeAfter (updateQuantity x q1) s)
  = storeAfter (updateQuantity x q2) s.
Proof.
  intros Hq1. apply positive_passes_guard in Hq1.
  destruct (findRef (fun item => id item =? x) (cartItems s)) as [i|] eqn:Hi.
  - rewrite (storeAfter_published _ _ _ (updateQuantity_existing _ _ _ _ Hq1 Hi)).
    set (s1 := {| cartItems := modifyAt i (assignQuantity q1) (cartItems s);
                  cartCount := reduceQuantity (modifyAt i (assignQuantity q1) (cartItems s)) |}).
    assert (Hi' : findRef (fun item => id item =? x) (cartItems s1) = Some i)
      by (simpl; rewrite findRef_modifyAt; [exact Hi|reflexivity]).
    destruct (q2 <=? 0)%float eqn:Hq2.
    + unfold storeAfter at 1 2. rewrite !(updateQuantity_nonpositive _ _ _ Hq2).
      rewrite !removeFromCart_run. simpl.
      fold (others x (modifyAt i (assignQuantity q1) (cartItems s))).
      fold (others x (cartItems s)).
      rewrite (others_modifyAt x i (assignQuantity q1) _ (fun _ => eq_refl) Hi). reflexivity.
    + rewrite (storeAfter_published _ _ _ (updateQuantity_existing x q2 s1 i Hq2 Hi')).
      rewrite (storeAfter_published _ _ _ (updateQuantity_existing x q2 s i Hq2 Hi)).
      simpl. rewrite modifyAt_twice.
      now rewrite (modifyAt_ext i _ (assignQuantity q2) _ (assignQuantity_twice q1 q2)).
  - unfold storeAfter at 2. rewrite (updateQuantity_unknown _ _ _ Hq1 Hi). reflexivity.
Qed.

Lemma updateQuantity_last_write_wins_witness :
  (0 <? 7)%float = true /\
  storeAfter (updateQuantity 1 (-2)) (storeAfter (updateQuantity 1 7) cartWithAB)
  = storeAfter (updateQuantity 1 (-2)) cartWithAB.
Proof.
  split; [reflexivity|].
  apply (updateQuantity_last_write_wins cartWithAB 1 7 (-2)). reflexivity.
Defined.

(** Repeated [addToCart] of the product of a one-line cart. *)
Lemma addToCart_repeat_items (product : Product.t) (n : nat) :
  forall (k c : float),
    cartItems (storeAfter (performAll (repeat (AddToCart product) n))
                          {| cartItems := [spread product k]; cartCount := c |})
    = [spread product (Nat.iter n (fun q => (q + 1)%float) k)].
Proof.
  induction n as [|n IH]; intros k c.
  - reflexivity.
  - cbn [repeat]. rewrite performAll_cons. cbn [perform].
    assert (Hi : findRef (fun item => id item =? Product.id product)
                   (cartItems {| cartItems := [spread product k]; cartCount := c |})
                 = Some O) by (simpl; now rewrite Z.eqb_refl).
    rewrite (storeAfter_published _ _ _ (addToCart_existing _ _ _ Hi)). cbn [cartItems modifyAt].
    change (assignQuantity (quantity (spread product k) + 1)%float (spread product k))
      with (spread product (k + 1)%float).
    rewrite IH. now rewrite Nat.iter_succ_r.
Qed.

(** X10: adding the same product [n + 1] times to the empty cart gives
    exactly one line, holding the product's name, price and image; its
    quantity is 1 incremented [n] times in double precision, and the
    count and [getTotalPrice] are computed from that single line. *)
Theorem addToCart_n_times (product : Product.t) (n : nat) :
  let q := Nat.iter n (fun q => (q + 1)%float) 1%float in
  let s := reached (repeat (AddToCart product) (S n)) in
  cartItems s = [spread product q] /\
  cartCount s = (0 + q)%float /\
  resultOf getTotalPrice s = (0 + Product.price product * q)%float.
Proof.
  intros q s.
  assert (Hitems : cartItems s = [spread product q]).
  { unfold s, reached. cbn [repeat]. rewrite performAll_cons. cbn [perform].
    apply (addToCart_repeat_items product n 1%float (0 + 1)%float). }
  assert (Hcount : countConsistent s).
  { unfold s, reached. apply (performAll_invariant countConsistent);
      [exact perform_countConsistent|reflexivity]. }
  split; [exact Hitems|]. unfold countConsistent in Hcount.
  change (resultOf getTotalPrice s) with (reducePrice (cartItems s)).
  rewrite Hcount, Hitems. split; reflexivity.
Qed.

Example addToCart_four_times :
  cartItems (reached (repeat (AddToCart productA) 4)) = [spread productA 4] /\
  cartCount (reached (repeat (AddToCart productA) 4)) = 4%float /\
  resultOf getTotalPrice (reached (repeat (AddToCart productA) 4)) = 40%float.
Proof. repeat split; reflexivity. Qed.

(** X11: [clearCart] forgets the past: whatever calls came before it, the
    calls that follow it lead to the store they would lead to from a
    freshly created service. *)
Theorem clearCart_forgets_history (before after : list Call) :
  reached (before ++ ClearCart :: after) = reached after.
Proof.
  unfold reached. rewrite performAll_app, performAll_cons. cbn [perform].
  now rewrite (storeAfter_published _ _ _ (clearCart_run _)).
Qed.

(** ** The notifications of a whole call sequence *)

(** A trace made of pairs: lines on the lines feed, immediately followed
    on the count feed by the double-precision sum of the quantities of
    those very lines. *)
Fixpoint pairedTrace (t : list Notification) : Prop :=
  match t with
  | [] => True
  | ItemsNext items :: CountNext c :: rest =>
      c = reduceQuantity items /\ pairedTrace rest
  | _ => False
  end.

Lemma emittedBy_performAll_cons (c : Call) (cs : list Call) (s : Store) :
  emittedBy (performAll (c :: cs)) s
  = emittedBy (perform c) s ++ emittedBy (performAll cs) (storeAfter (perform c) s).
Proof.
  simpl. unfold emittedBy, storeAfter, bind. destruct (perform c s) as [[u s1] t1]. simpl.
  now destruct (performAll cs s1) as [[u2 s2] t2].
Qed.

(** X12: over any sequence of calls, from any store, the notifications
    come in pairs: each delivery on the lines feed is immediately
    followed by one on the count feed whose value is what
    [updateCartCount] computes from the lines just delivered (their
    quantities added up in double precision, left to right from 0);
    there are at most two notifications per call. *)
Theorem notifications_come_in_consistent_pairs (cs : list Call) (s : Store) :
  pairedTrace (emittedBy (performAll cs) s) /\
  (length (emittedBy (performAll cs) s) <= 2 * length cs)%nat.
Proof.
  revert s. induction cs as [|c cs IH]; intros s.
  - split; [exact I|]. simpl. lia.
  - rewrite emittedBy_performAll_cons.
    destruct (IH (storeAfter (perform c) s)) as [Hpair Hlen].
    assert (Hc : emittedBy (perform c) s = [] \/
                 exists items,
                   emittedBy (perform c) s
                   = [ItemsNext items; CountNext (reduceQuantity items)]).
    { unfold emittedBy.
      destruct (perform_silent_or_published c s) as [-> | [items ->]]; [now left|right].
      now exists items. }
    destruct Hc as [-> | [items ->]].
    + cbn [app length]. split; [exact Hpair|]. lia.
    + cbn [app pairedTrace length]. split; [split; [reflexivity|exact Hpair]|]. lia.
Qed.

(** ** Lines of other products *)

(** X13: a call about one product leaves the lines of all other products
    as they were: [addToCart], [removeFromCart] and [updateQuantity] for
    an identifier [x] neither change, add, drop nor reorder any line whose
    identifier is not [x]. *)
Theorem calls_leave_other_products :
  (forall (product : Product.t) (s : Store),
      others (Product.id product) (cartItems (storeAfter (addToCart product) s))
      = others (Product.id product) (cartItems s)) /\
  (forall (x : Z) (s : Store),
      others x (cartItems (storeAfter (removeFromCart x) s)) = others x (cartItems s)) /\
  (forall (x : Z) (q : float) (s : Store),
      others x (cartItems (storeAfter (updateQuantity x q) s)) = others x (cartItems s)).
Proof.
  assert (Hrem : forall x s,
            others x (cartItems (storeAfter (removeFromCart x) s)) = others x (cartItems s)).
  { intros x s. rewrite (storeAfter_published _ _ _ (removeFromCart_run _ _)). simpl.
    apply others_idempotent. }
  split; [|split; [exact Hrem|]].
  - intros product s.
    destruct (findRef (fun item => id item =? Product.id product) (cartItems s))
      as [i|] eqn:Hi.
    + rewrite (storeAfter_published _ _ _ (addToCart_existing _ _ _ Hi)). simpl.
      apply others_modifyAt; [reflexivity|exact Hi].
    + rewrite (storeAfter_published _ _ _ (addToCart_fresh _ _ Hi)). simpl.
      rewrite others_app. unfold others at 2. simpl. rewrite Z.eqb_refl. simpl.
      apply app_nil_r.
  - intros x q s. destruct (q <=? 0)%float eqn:Hq.
    + unfold storeAfter. rewrite (updateQuantity_nonpositive _ _ _ Hq). apply Hrem.
    + destruct (findRef (fun item => id item =? x) (cartItems s)) as [i|] eqn:Hi.
      * rewrite (storeAfter_published _ _ _ (updateQuantity_existing _ _ _ _ Hq Hi)).
        simpl. apply others_modifyAt; [reflexivity|exact Hi].
      * unfold storeAfter. now rewrite (updateQuantity_unknown _ _ _ Hq Hi).
Qed.

(** * The components around the service

    The components are modelled by their fields and their methods.  The
    product tables they hard-code are data for the templates and are not
    part of the model.  Prices are doubles, as in the service.  The only
    operation on a rating is [Math.floor], so a rating is taken as the
    rational number it denotes; the selected quantity and the stock are
    whole numbers that move by steps of 1 and are integers. *)

(** ** ProductDetailComponent (product-detail.component.ts) *)

Module ProductDetailComponent.

(** [interface Product]. *)
Record Product : Type := mkProduct {
  id : Z;
  name : string;
  price : float;
  description : string;
  image : string;
  category : string;
  rating : QArith_base.Q;
  stock : Z
}.

(** The fields of the component; [None] stands for [null]. *)
Record t : Type := mk {
  product : option Product;
  loading : bool;
  quantity : Z
}.

(** [product: Product | null = null; loading = true; quantity = 1]. *)
Definition initial : t := {| product := None; loading := true; quantity := 1 |}.

(** [addToCart()]: the call into the injected service, and the texts
    passed to [alert] as the result. *)
Definition addToCart (c : t) : Cart (list string) :=
  match product c with
  | Some p =>
      addToCart (Product.mk (id p) (name p) (price p) (Some (image p))) ;;
      ret ["Product added to cart!"%string]
  | None => ret []
  end.

Definition increaseQuantity (c : t) : t :=
  match product c with
  | Some p =>
      if quantity c <? stock p
      then {| product := product c; loading := loading c; quantity := quantity c + 1 |}
      else c
  | None => c
  end.

Definition decreaseQuantity (c : t) : t :=
  if 1 <? quantity c
  then {| product := product c; loading := loading c; quantity := quantity c - 1 |}
  else c.

(** A press on one of the two quantity buttons. *)
Inductive Press : Type := Plus | Minus.

Definition press (b : Press) (c : t) : t :=
  match b with
  | Plus => increaseQuantity c
  | Minus => decreaseQuantity c
  end.

(** The presses of a list, first to last. *)
Definition pressAll (bs : list Press) (c : t) : t :=
  fold_left (fun c b => press b c) bs c.

End ProductDetailComponent.

(** ** ContentComponent (content.component.ts) *)

Module IProduct.
(** The fields of the product literals of [initializeProducts]. *)
Record t : Type := mk {
  id : Z;
  name : string;
  description : string;
  price : float;
  imageUrl : string;
  categoryId : Z;
  inStock : bool;
  rating : QArith_base.Q
}.
End IProduct.

Module ICategory.
(** The fields of the category literals of [initializeCategories]. *)
Record t : Type := mk {
  id : Z;
  name : string;
  description : string
}.
End ICategory.

Module ContentComponent.

Record t : Type := mk {
  products : list IProduct.t;
  categories : list ICategory.t;
  filteredProducts : list IProduct.t;
  selectedCategoryId : Z
}.

Definition onCategoryChange (c : t) : t :=
  let categoryId := selectedCategoryId c in
  if categoryId =? 0 then
    {| products := products c; categories := categories c;
       filteredProducts := products c;
       selectedCategoryId := selectedCategoryId c |}
  else
    {| products := products c; categories := categories c;
       filteredProducts :=
         filter (fun product => IProduct.categoryId product =? categoryId) (products c);
       selectedCategoryId := selectedCategoryId c |}.

(** [Array.prototype.map] with the callback's index argument. *)
Fixpoint mapIndexed {A B : Type} (f : A -> Z -> B) (index : Z) (l : list A) : list B :=
  match l with
  | [] => []
  | x :: rest => f x index :: mapIndexed f (index + 1) rest
  end.

(** [Array(5).fill(0).map((_, index) => index < fullStars ? 1 : 0)]. *)
Definition getStarsArray (rating : QArith_base.Q) : list Z :=
  let fullStars := Qround.Qfloor rating in
  mapIndexed (fun _ index => if index <? fullStars then 1 else 0) 0 (repeat 0 5%nat).

End ContentComponent.

(** ** SearchBarComponent (search-bar.component.ts) *)

Module SearchBarComponent.

Record t : Type := mk {
  searchTerm : string;
  isSearching : bool
}.

(** [searchTerm: string = ''; isSearching: boolean = false]. *)
Definition initial : t := {| searchTerm := ""; isSearching := false |}.

(** [onSearchInput()]: the component afterwards and the values emitted on
    [searchChange]. *)
Definition onSearchInput (c : t) : t * list string :=
  let c1 := {| searchTerm := searchTerm c;
               isSearching := Nat.ltb 0 (String.length (searchTerm c)) |} in
  (c1, [searchTerm c1]).

Definition clearSearch (c : t) : t * list string :=
  ({| searchTerm := ""; isSearching := false |}, [""%string]).

End SearchBarComponent.

(** ** The quantity buttons of the product page *)

Lemma press_keeps_product (b : ProductDetailComponent.Press) (c : ProductDetailComponent.t) :
  ProductDetailComponent.product (ProductDetailComponent.press b c)
  = ProductDetailComponent.product c.
Proof.
  destruct b; simpl.
  - unfold ProductDetailComponent.increaseQuantity.
    destruct (ProductDetailComponent.product c) as [p|] eqn:Hp; [|exact Hp].
    destruct (_ <? _); [reflexivity|exact Hp].
  - unfold ProductDetailComponent.decreaseQuantity. now destruct (_ <? _).
Qed.

Lemma pressAll_keeps_product (bs : list ProductDetailComponent.Press)
      (c : ProductDetailComponent.t) :
  ProductDetailComponent.product (ProductDetailComponent.pressAll bs c)
  = ProductDetailComponent.product c.
Proof.
  revert c. unfold ProductDetailComponent.pressAll.
  induction bs as [|b bs IH]; intros c; simpl; [reflexivity|].
  now rewrite IH, press_keeps_product.
Qed.

(** The product page right after product [p] was stored in it. *)
Definition pageShowing (p : ProductDetailComponent.Product) : ProductDetailComponent.t :=
  {| ProductDetailComponent.product := Some p;
     ProductDetailComponent.loading := false;
     ProductDetailComponent.quantity := 1 |}.

(** A product with a stock of 15. *)
Definition sampleProduct : ProductDetailComponent.Product :=
  ProductDetailComponent.mkProduct 1 "A" 10 "sample" "a.png" "Samples"
    (QArith_base.Qmake 9 2) 15.

(** X14: the quantity selected on the product page never leaves its
    range.  Starting from a quantity of at least 1, after any presses of
    the two buttons the quantity is still at least 1 and the product is
    the same; it never exceeds the product's stock if it did not before
    (1 counts as in range even for a stock below 1), and without a
    product it never grows. *)
Theorem selected_quantity_stays_in_range
        (bs : list ProductDetailComponent.Press) (c : ProductDetailComponent.t) :
  1 <= ProductDetailComponent.quantity c ->
  1 <= ProductDetailComponent.quantity (ProductDetailComponent.pressAll bs c) /\
  ProductDetailComponent.product (ProductDetailComponent.pressAll bs c)
  = ProductDetailComponent.product c /\
  (forall p, ProductDetailComponent.product c = Some p ->
             ProductDetailComponent.quantity c <= Z.max 1 (ProductDetailComponent.stock p) ->
             ProductDetailComponent.quantity (ProductDetailComponent.pressAll bs c)
             <= Z.max 1 (ProductDetailComponent.stock p)) /\
  (ProductDetailComponent.product c = None ->
   ProductDetailComponent.quantity (ProductDetailComponent.pressAll bs c)
   <= ProductDetailComponent.quantity c).
Proof.
  intros Hq. split; [|split; [apply pressAll_keeps_product|split]].
  - revert c Hq. unfold ProductDetailComponent.pressAll.
    induction bs as [|b bs IH]; intros c Hq; simpl; [exact Hq|]. apply IH.
    destruct b; simpl.
    + unfold ProductDetailComponent.increaseQuantity.
      destruct (ProductDetailComponent.product c) as [p|]; [|exact Hq].
      destruct (_ <? _); simpl; lia.
    + unfold ProductDetailComponent.decreaseQuantity.
      destruct (Z.ltb_spec 1 (ProductDetailComponent.quantity c)); simpl; lia.
  - intros p. revert c Hq. unfold ProductDetailComponent.pressAll.
    induction bs as [|b bs IH]; intros c Hq Hp Hmax; simpl; [exact Hmax|].
    assert (Hstep : 1 <= ProductDetailComponent.quantity (ProductDetailComponent.press b c)
                    <= Z.max 1 (ProductDetailComponent.stock p)).
    { destruct b; simpl.
      - unfold ProductDetailComponent.increaseQuantity. rewrite Hp.
        destruct (Z.ltb_spec (ProductDetailComponent.quantity c)
                             (ProductDetailComponent.stock p)); simpl; lia.
      - unfold ProductDetailComponent.decreaseQuantity.
        destruct (Z.ltb_spec 1 (ProductDetailComponent.quantity c)); simpl; lia. }
    apply IH; [lia| |lia]. now rewrite press_keeps_product.
  - revert c Hq. unfold ProductDetailComponent.pressAll.
    induction bs as [|b bs IH]; intros c Hq Hp; simpl; [lia|].
    assert (Hstep : 1 <= ProductDetailComponent.quantity (ProductDetailComponent.press b c)
                    <= ProductDetailComponent.quantity c).
    { destruct b; simpl.
      - unfold ProductDetailComponent.increaseQuantity. rewrite Hp. lia.
      - unfold ProductDetailComponent.decreaseQuantity.
        destruct (Z.ltb_spec 1 (ProductDetailComponent.quantity c)); simpl; lia. }
    assert (Hp' : ProductDetailComponent.product (ProductDetailComponent.press b c) = None)
      by now rewrite press_keeps_product.
    specialize (IH _ (proj1 Hstep) Hp'). lia.
Qed.

Lemma selected_quantity_stays_in_range_witness :
  1 <= ProductDetailComponent.quantity (pageShowing sampleProduct) /\
  1 <= ProductDetailComponent.quantity
         (ProductDetailComponent.pressAll
            [ProductDetailComponent.Minus; ProductDetailComponent.Plus;
             ProductDetailComponent.Plus]
            (pageShowing sampleProduct)) /\
  ProductDetailComponent.quantity
    (ProductDetailComponent.pressAll
       [ProductDetailComponent.Minus; ProductDetailComponent.Plus;
        ProductDetailComponent.Plus]
       (pageShowing sampleProduct))
  <= Z.max 1 (ProductDetailComponent.stock sampleProduct).
Proof.
  split; [simpl; lia|].
  destruct (selected_quantity_stays_in_range
              [ProductDetailComponent.Minus; ProductDetailComponent.Plus;
               ProductDetailComponent.Plus]
              (pageShowing sampleProduct)) as (Hlow & _ & Hhigh & _).
  - simpl. lia.
  - split; [exact Hlow|]. apply (Hhigh sampleProduct); [reflexivity|simpl; lia].
Defined.

(** ** The add-to-cart button of the product page *)

(** X15: the add-to-cart button of the product page hands the service
    the product's id, name, price and image and nothing else: the
    quantity selected with the two buttons and the stock play no part, so
    pressing the quantity buttons beforehand changes nothing of what
    [addToCart()] does.  With a product, the cart afterwards and the
    notifications are those of one [addToCart] of the service, the
    product's identifier is in the cart and one alert is shown; without a
    product the cart is not touched, nothing is published and no alert is
    shown. *)
Theorem page_addToCart_adds_one_unit :
  (forall (bs : list ProductDetailComponent.Press) (c : ProductDetailComponent.t)
          (s : Store),
      ProductDetailComponent.addToCart (ProductDetailComponent.pressAll bs c) s
      = ProductDetailComponent.addToCart c s) /\
  (forall (c : ProductDetailComponent.t) (p : ProductDetailComponent.Product) (s : Store),
      ProductDetailComponent.product c = Some p ->
      let handed := Product.mk (ProductDetailComponent.id p) (ProductDetailComponent.name p)
                               (ProductDetailComponent.price p)
                               (Some (ProductDetailComponent.image p)) in
      storeAfter (ProductDetailComponent.addToCart c) s = storeAfter (addToCart handed) s /\
      emittedBy (ProductDetailComponent.addToCart c) s = emittedBy (addToCart handed) s /\
      In (ProductDetailComponent.id p)
         (ids (cartItems (storeAfter (ProductDetailComponent.addToCart c) s))) /\
      resultOf (ProductDetailComponent.addToCart c) s = ["Product added to cart!"%string]) /\
  (forall (c : ProductDetailComponent.t) (s : Store),
      ProductDetailComponent.product c = None ->
      ProductDetailComponent.addToCart c s = ([], s, [])).
Proof.
  split; [|split].
  - intros bs c s. unfold ProductDetailComponent.addToCart.
    now rewrite pressAll_keeps_product.
  - intros c p s Hp handed. unfold ProductDetailComponent.addToCart. rewrite Hp.
    fold handed.
    assert (Hstore : storeAfter (addToCart handed ;; ret ["Product added to cart!"%string]) s
                     = storeAfter (addToCart handed) s).
    { unfold storeAfter, bind, ret. now destruct (addToCart handed s) as [[u s1] t1]. }
    rewrite Hstore. split; [reflexivity|]. split; [|split].
    + unfold emittedBy, bind, ret. destruct (addToCart handed s) as [[u s1] t1].
      simpl. apply app_nil_r.
    + change (ProductDetailComponent.id p) with (Product.id handed).
      destruct (findRef (fun item => id item =? Product.id handed) (cartItems s))
        as [i|] eqn:Hi.
      * rewrite (storeAfter_published _ _ _ (addToCart_existing _ _ _ Hi)). simpl.
        rewrite modifyAt_ids by reflexivity.
        destruct (in_dec Z.eq_dec (Product.id handed) (ids (cartItems s))) as [Hin|Hout];
          [exact Hin|]. apply findRef_absent in Hout. congruence.
      * rewrite (storeAfter_published _ _ _ (addToCart_fresh _ _ Hi)). simpl.
        unfold ids. rewrite map_app, in_app_iff. right. now left.
    + unfold resultOf, bind, ret. now destruct (addToCart handed s) as [[u s1] t1].
  - intros c s Hp. unfold ProductDetailComponent.addToCart. now rewrite Hp.
Qed.

Lemma page_addToCart_adds_one_unit_witness :
  ProductDetailComponent.product (pageShowing sampleProduct) = Some sampleProduct /\
  In (ProductDetailComponent.id sampleProduct)
     (ids (cartItems (storeAfter (ProductDetailComponent.addToCart (pageShowing sampleProduct))
                                 cartWithA))) /\
  ProductDetailComponent.addToCart
    {| ProductDetailComponent.product := None;
       ProductDetailComponent.loading := true;
       ProductDetailComponent.quantity := 1 |} cartWithA
  = ([], cartWithA, []).
Proof.
  split; [reflexivity|]. split.
  - apply (proj1 (proj2 page_addToCart_adds_one_unit) (pageShowing sampleProduct)
                 sampleProduct cartWithA). reflexivity.
  - apply (proj2 (proj2 page_addToCart_adds_one_unit)). reflexivity.
Defined.

(** ** The category filter *)

(** X16: after [onCategoryChange] the displayed list depends only on the
    full product list and the selected category, never on what was
    displayed before.  Category 0 displays every product; any other
    category displays exactly the products of that category, in the order
    of the full list.  The full list, the categories and the selection
    are left alone, and a second call changes nothing. *)
Theorem onCategoryChange_filters_full_list (c : ContentComponent.t) :
  let c' := ContentComponent.onCategoryChange c in
  ContentComponent.products c' = ContentComponent.products c /\
  ContentComponent.categories c' = ContentComponent.categories c /\
  ContentComponent.selectedCategoryId c' = ContentComponent.selectedCategoryId c /\
  (forall shown,
      ContentComponent.filteredProducts
        (ContentComponent.onCategoryChange
           {| ContentComponent.products := ContentComponent.products c;
              ContentComponent.categories := ContentComponent.categories c;
              ContentComponent.filteredProducts := shown;
              ContentComponent.selectedCategoryId := ContentComponent.selectedCategoryId c |})
      = ContentComponent.filteredProducts c') /\
  Subseq (ContentComponent.filteredProducts c') (ContentComponent.products c) /\
  (ContentComponent.selectedCategoryId c = 0 ->
   ContentComponent.filteredProducts c' = ContentComponent.products c) /\
  (ContentComponent.selectedCategoryId c <> 0 ->
   forall product,
     In product (ContentComponent.filteredProducts c') <->
     In product (ContentComponent.products c) /\
     IProduct.categoryId product = ContentComponent.selectedCategoryId c) /\
  ContentComponent.onCategoryChange c' = c'.
Proof.
  unfold ContentComponent.onCategoryChange. cbn zeta.
  destruct (Z.eqb_spec (ContentComponent.selectedCategoryId c) 0) as [H0|H0]; simpl.
  - rewrite H0. simpl. repeat split; auto using Subseq_refl; try contradiction.
  - apply Z.eqb_neq in H0. rewrite H0. simpl. apply Z.eqb_neq in H0.
    split; [reflexivity|]. split; [reflexivity|]. split; [reflexivity|].
    split; [reflexivity|]. split; [apply filter_Subseq|]. split; [contradiction|].
    split; [|reflexivity].
    intros _ product. rewrite filter_In, Z.eqb_eq. reflexivity.
Qed.

Lemma onCategoryChange_filters_full_list_witness :
  let c := {| ContentComponent.products :=
                [IProduct.mk 1 "P" "d" 10 "u" 1 true (QArith_base.Qmake 9 2);
                 IProduct.mk 2 "Q" "d" 20 "u" 2 true (QArith_base.Qmake 4 1)];
              ContentComponent.categories := [];
              ContentComponent.filteredProducts := [];
              ContentComponent.selectedCategoryId := 2 |} in
  ContentComponent.selectedCategoryId c <> 0 /\
  (In (IProduct.mk 2 "Q" "d" 20 "u" 2 true (QArith_base.Qmake 4 1))
      (ContentComponent.filteredProducts (ContentComponent.onCategoryChange c)) <->
   In (IProduct.mk 2 "Q" "d" 20 "u" 2 true (QArith_base.Qmake 4 1))
      (ContentComponent.products c) /\
   IProduct.categoryId (IProduct.mk 2 "Q" "d" 20 "u" 2 true (QArith_base.Qmake 4 1))
   = ContentComponent.selectedCategoryId c).
Proof.
  intros c. split; [discriminate|].
  destruct (onCategoryChange_filters_full_list c) as (_ & _ & _ & _ & _ & _ & Hcat & _).
  apply Hcat. discriminate.
Defined.

(** ** The star row *)

(** X17: [getStarsArray] always returns five entries, the filled stars
    (1) first and the empty ones (0) after them; the number of filled
    stars is the integer part of the rating, taken as 0 below 0 and as 5
    above 5. *)
Theorem getStarsArray_five_stars (rating : QArith_base.Q) :
  let filled := Z.to_nat (Z.max 0 (Z.min 5 (Qround.Qfloor rating))) in
  ContentComponent.getStarsArray rating = repeat 1 filled ++ repeat 0 (5 - filled)%nat /\
  length (ContentComponent.getStarsArray rating) = 5%nat.
Proof.
  unfold ContentComponent.getStarsArray. set (f := Qround.Qfloor rating). cbn zeta.
  split; [|reflexivity]. simpl.
  destruct (Z.ltb_spec 0 f); destruct (Z.ltb_spec 1 f); destruct (Z.ltb_spec 2 f);
    destruct (Z.ltb_spec 3 f); destruct (Z.ltb_spec 4 f); try lia;
    first [ replace (Z.max 0 (Z.min 5 f)) with 0 by lia
          | replace (Z.max 0 (Z.min 5 f)) with 1 by lia
          | replace (Z.max 0 (Z.min 5 f)) with 2 by lia
          | replace (Z.max 0 (Z.min 5 f)) with 3 by lia
          | replace (Z.max 0 (Z.min 5 f)) with 4 by lia
          | replace (Z.max 0 (Z.min 5 f)) with 5 by lia ];
    reflexivity.
Qed.

Example getStarsArray_four_and_a_half :
  ContentComponent.getStarsArray (QArith_base.Qmake 9 2) = [1; 1; 1; 1; 0].
Proof. reflexivity. Qed.

(** ** The search box *)

(** X18: after either handler of the search box, [isSearching] is on
    exactly when the text is not empty, and the one value emitted on
    [searchChange] is the text the box is left with.  [clearSearch] does
    what [onSearchInput] does on an emptied box. *)
Theorem search_flag_follows_text (c : SearchBarComponent.t) :
  (let '(c', emitted) := SearchBarComponent.onSearchInput c in
   SearchBarComponent.searchTerm c' = SearchBarComponent.searchTerm c /\
   emitted = [SearchBarComponent.searchTerm c'] /\
   (SearchBarComponent.isSearching c' = true <->
    SearchBarComponent.searchTerm c' <> ""%string)) /\
  (let '(c', emitted) := SearchBarComponent.clearSearch c in
   emitted = [SearchBarComponent.searchTerm c'] /\
   (SearchBarComponent.isSearching c' = true <->
    SearchBarComponent.searchTerm c' <> ""%string)) /\
  SearchBarComponent.clearSearch c
  = SearchBarComponent.onSearchInput
      {| SearchBarComponent.searchTerm := "";
         SearchBarComponent.isSearching := SearchBarComponent.isSearching c |}.
Proof.
  split; [|split; [|reflexivity]]; simpl.
  - split; [reflexivity|]. split; [reflexivity|].
    destruct (SearchBarComponent.searchTerm c) as [|a rest]; simpl.
    + split; [discriminate|]. intros H. now contradiction H.
    + split; [discriminate|reflexivity].
  - split; [reflexivity|]. split; [discriminate|]. intros H. now contradiction H.
Qed.
